(** * Wikipedia top-articles analyser (Exercise-1/run.py)

    A shallow embedding of [run.py]: the retrying HTTP helper [__api__], the
    endpoint builder [get_top_wiki_articles] and the pipeline [main]
    (collection loop, top-20 selection, per-article densification with
    forward fill, summary statistics).

    Modelling conventions.
    - A [pandas] frame is the list of its rows, in row order; a cell of the
      [views] column that holds no number (NaN, or [None] in a column of
      objects) is [None].  The dtype pandas gives the [views] column is
      kept next to the rows of the frames [main] collects: it decides
      whether line 87 finds the column, whether [nlargest] accepts it, and
      whether the numbers are kept as int64 or rounded to float64.
    - The numbers of views are JSON integers within int64.  A float64
      column holds an integer of magnitude above 2^53 rounded to the
      nearest float64 ([float64_of_Z]).
    - Dates are day numbers ([Z]); [pd.date_range(start, end, freq='D')] is
      the list of consecutive days from [start] to [end] inclusive.
    - What depends on the installed pandas is a parameter ([pandas]): the
      two [mean] methods, which work in binary floating point by a
      summation that depends on the build, and one choice of [pd.concat]
      that changed with pandas 3.  [exact_lib], with the exact means
      [meanZ] and [meanQ], is used in the examples, where every
      intermediate value is exact in binary64.
    - The outside world is a log of events (requests, sleeps, printed
      messages, the saved figure) threaded through a state-and-exception
      monad; the network is an oracle giving the outcome of the n-th
      request of the run.
    - [strftime] belongs to the Python library and is a parameter. *)

From Stdlib Require Import List ZArith QArith Qfield String Ascii Bool Lia.
From Stdlib Require Import Permutation Sorted OrderedTypeEx.
Import ListNotations.

Local Open Scope string_scope.
Local Open Scope list_scope.
Local Open Scope Z_scope.

(** ** Exceptions, events and the effect monad *)

Inductive exn : Type :=
| RequestException (info : string)
    (* requests.RequestException and its subclasses: connection errors,
       HTTPError from raise_for_status, JSONDecodeError from json() *)
| ValueError (msg : string)
| IndexError (msg : string)
| KeyError (key : string)
| TypeError (msg : string)
| OtherException (info : string).
    (* any exception class outside the two named by the except clause *)

Inductive message : Type :=
| MsgAttemptFailed (attempt : Z) (e : exn)
| MsgGaveUp (retries : Z) (url : string)
| MsgSkip (date_str : string).

Inductive event : Type :=
| EvGet (url : string)
| EvSleep (seconds : Q)
| EvPrint (m : message)
| EvSavefig (path : string).

Record world : Type := mkWorld {
  requests_made : nat;
  log : list event
}.

Inductive result (A : Type) : Type :=
| Ok (a : A)
| Raise (e : exn).
Arguments Ok {A} a.
Arguments Raise {A} e.

Definition M (A : Type) : Type := world -> result A * world.

Definition ret {A} (a : A) : M A := fun w => (Ok a, w).
Definition raise {A} (e : exn) : M A := fun w => (Raise e, w).
Definition bind {A B} (m : M A) (k : A -> M B) : M B :=
  fun w => match m w with
           | (Ok a, w') => k a w'
           | (Raise e, w') => (Raise e, w')
           end.
Definition lift {A} (r : result A) : M A := fun w => (r, w).

Notation "x <- m ;; k" := (bind m (fun x => k))
  (at level 61, m at next level, right associativity).
Notation "m ;;; k" := (bind m (fun _ => k))
  (at level 61, right associativity).

Definition emit (e : event) : M unit :=
  fun w => (Ok tt, mkWorld (requests_made w) (log w ++ [e])).

Definition print (m : message) : M unit := emit (EvPrint m).

(** [time.sleep] raises [ValueError] on a negative duration. *)
Definition time_sleep (seconds : Q) : M unit :=
  if Qnum seconds <? 0
  then raise (ValueError "sleep length must be non-negative")
  else emit (EvSleep seconds).

(** ** The data a request can return *)

(** What an element of the [articles] list holds under ["views"]: an
    integer, the float NaN, [null], or nothing (the key is missing). *)
Inductive views_field : Type :=
| ViewsNumber (v : Z)
| ViewsNaN
| ViewsNull
| ViewsMissing.

(** One element of the [articles] list of the response. *)
Record entry : Type := mkEntryField {
  e_article : string;
  e_field : views_field
}.

(** An entry with a number of views, or with NaN in its place. *)
Definition mkEntry (a : string) (v : option Z) : entry :=
  mkEntryField a (match v with
                  | Some z => ViewsNumber z
                  | None => ViewsNaN
                  end).

(** The number of views of an entry, [None] when it has none. *)
Definition e_views (e : entry) : option Z :=
  match e_field e with
  | ViewsNumber z => Some z
  | _ => None
  end.

(** One element of the [items] list: a dict that may have the key
    ["articles"]. *)
Record item : Type := mkItem {
  i_articles : option (list entry)
}.

(** The decoded response body: a dict that may have the key ["items"],
    next to other keys. *)
Record payload : Type := mkPayload {
  p_items : option (list item);
  p_other_keys : list string
}.

(** The outcome of the body of the [try]: [requests.get], then
    [raise_for_status], then [json()]. *)
Inductive attempt_result : Type :=
| Returned (data : payload)
| Raised (e : exn).

(** [except (requests.RequestException, ValueError)] *)
Definition caught (e : exn) : bool :=
  match e with
  | RequestException _ | ValueError _ => true
  | _ => false
  end.

Definition API_BASE_URL : string := "https://wikimedia.org/api/rest_v1/metrics".
Definition TOP_ENDPOINT : string := "pageviews/top".

(** [TOP_ARGS.format(project=..., access=..., year=..., month=..., day=...)] *)
Definition TOP_ARGS (project access year month day : string) : string :=
  (project ++ "/" ++ access ++ "/" ++ year ++ "/" ++ month ++ "/" ++ day)%string.

(** [range(n)] *)
Definition range (n : Z) : list Z :=
  map Z.of_nat (seq 0 (Z.to_nat n)).

Section Fetcher.

(** [net url n] is the outcome of requesting [url] when [n] requests have
    been made before it. *)
Variable net : string -> nat -> attempt_result.

Definition requests_get (url : string) : M attempt_result :=
  fun w => (Ok (net url (requests_made w)),
            mkWorld (S (requests_made w)) (log w ++ [EvGet url])).

(** The [for attempt in range(retries)] loop of [__api__], followed by the
    two statements after it. *)
Fixpoint api_loop (url : string) (retries delay : Z) (attempts : list Z)
  : M (option payload) :=
  match attempts with
  | [] =>
      print (MsgGaveUp retries url) ;;;
      ret None
  | attempt :: rest =>
      r <- requests_get url ;;
      match r with
      | Returned data => ret (Some data)
      | Raised e =>
          if caught e then
            print (MsgAttemptFailed (attempt + 1) e) ;;;
            (if attempt <? retries - 1
             then time_sleep (inject_Z delay)
             else ret tt) ;;;
            api_loop url retries delay rest
          else raise e
      end
  end.

Definition __api__ (end_point args api_url : string) (retries delay : Z)
  : M (option payload) :=
  let url := (api_url ++ "/" ++ end_point ++ "/" ++ args)%string in
  api_loop url retries delay (range retries).

Definition get_top_wiki_articles (project year month day access : string)
    (retries delay : Z) : M (option payload) :=
  let args := TOP_ARGS project access year month day in
  __api__ TOP_ENDPOINT args API_BASE_URL retries delay.

End Fetcher.

(** ** Frames *)

Record row : Type := mkRow {
  date : Z;
  article : string;
  views : option Z
}.

Definition frame : Type := list row.

(** ** The dtype of the [views] column *)

(** What pandas makes of the [views] column of a frame: no such column,
    a column of Python objects, int64, or float64. *)
Inductive dtype : Type :=
| NoColumn
| ObjectDtype
| Int64
| Float64.

(** A frame with the dtype of its [views] column. *)
Record table : Type := mkTable {
  t_rows : frame;
  t_views : dtype
}.

(** The integer held by the float64 nearest to the integer [z]: [z] itself
    up to 2^53 in magnitude; beyond that, [z] rounded to 53 significant
    bits, a tie going to the even significand.  ([q] is the significand,
    [e] the exponent of its last bit, [r] what is cut off.) *)
Definition float64_of_Z (z : Z) : Z :=
  let a := Z.abs z in
  if a <=? 2 ^ 53 then z
  else
    let e := Z.log2 a - 52 in
    let q := Z.shiftr a e in
    let r := Z.land a (Z.ones e) in
    let half := Z.shiftl 1 (e - 1) in
    let q' := if (half <? r) || ((r =? half) && Z.odd q) then q + 1 else q in
    Z.sgn z * Z.shiftl q' e.

(** A row of a column converted to float64. *)
Definition round_row (r : row) : row :=
  mkRow (date r) (article r) (option_map float64_of_Z (views r)).

(** [astype("float64")] on the [views] column, as an upcast does it. *)
Definition astype_float64 (df : frame) : frame := map round_row df.

Definition is_no_column (d : dtype) : bool :=
  match d with NoColumn => true | _ => false end.
Definition is_object (d : dtype) : bool :=
  match d with ObjectDtype => true | _ => false end.
Definition is_int64 (d : dtype) : bool :=
  match d with Int64 => true | _ => false end.
Definition is_float64 (d : dtype) : bool :=
  match d with Float64 => true | _ => false end.

(** The rows of the frames, one frame after the other. *)
Definition rows_of (tables : list table) : frame :=
  List.concat (map t_rows tables).

(** What is taken from the installed pandas.
    - [group_mean]: [mean] of the views of one group of
      [valid_views.groupby("article")["views"]].
    - [series_mean]: [mean] of the series of group means.
    - [all_na_ignored]: whether [pd.concat] leaves the frames whose
      [views] are all [None] out of the choice of the dtype, so that
      float64 wins over them.  pandas before 3.0 does so for some mixes of
      frames (with a FutureWarning), later versions never do.  It is asked
      only where the versions differ: when a frame of objects meets a
      float64 frame or a frame without the column. *)
Record pandas : Type := mkPandas {
  group_mean : list Z -> Q;
  series_mean : list Q -> Q;
  all_na_ignored : list table -> bool
}.

(** The dtype [pd.concat] gives the [views] column: the column is missing
    when no frame has it; int64 is kept when every frame has int64; a
    frame with a column of objects makes it a column of objects, unless
    [all_na_ignored] lets float64 win where the versions differ; without
    a frame of objects every other mix (a float64 frame, or a frame
    without the column, whose rows get NaN) is float64. *)
Definition concat_dtype (lib : pandas) (tables : list table) : dtype :=
  let ds := map t_views tables in
  if forallb is_no_column ds then NoColumn
  else if existsb is_object ds then
    if (existsb is_float64 ds || existsb is_no_column ds)
       && all_na_ignored lib tables
    then Float64
    else ObjectDtype
  else if forallb is_int64 ds then Int64
  else Float64.

(** [pd.concat(data_frames, ignore_index=True)] *)
Definition pd_concat (lib : pandas) (tables : list table) : frame :=
  let df := rows_of tables in
  match concat_dtype lib tables with
  | Float64 => astype_float64 df
  | _ => df
  end.

(** [pd.date_range(start_date, end_date, freq='D')] *)
Definition date_range (start_date end_date : Z) : list Z :=
  map (fun i => start_date + Z.of_nat i)
      (seq 0 (Z.to_nat (end_date - start_date + 1))).

(** [df.sort_values("date")]: ascending; rows of one date keep their
    order here.  (pandas does not promise an order among rows of one date;
    no statement below depends on it.) *)
Fixpoint insert_by_date (r : row) (l : frame) : frame :=
  match l with
  | [] => [r]
  | r' :: l' =>
      if date r <=? date r' then r :: l else r' :: insert_by_date r l'
  end.

Definition sort_values_date (df : frame) : frame :=
  fold_right insert_by_date [] df.

(** [groupby("article")]: the group keys are the distinct articles in
    ascending string order; a group holds its rows in frame order. *)
Fixpoint insert_key (k : string) (ks : list string) : list string :=
  match ks with
  | [] => [k]
  | k' :: ks' =>
      if String.eqb k k' then ks
      else if String.ltb k k' then k :: ks
      else k' :: insert_key k ks'
  end.

Definition group_keys (df : frame) : list string :=
  fold_right insert_key [] (map article df).

Definition group_rows (k : string) (df : frame) : frame :=
  filter (fun r => String.eqb (article r) k) df.

Definition groupby_article (df : frame) : list (string * frame) :=
  map (fun k => (k, group_rows k df)) (group_keys df).

(** [GroupBy.last()] on one group: the last value that is not NaN. *)
Fixpoint last_valid (vs : list (option Z)) : option Z :=
  match vs with
  | [] => None
  | v :: vs' =>
      match last_valid vs' with
      | Some x => Some x
      | None => v
      end
  end.

(** [df.sort_values("date").groupby("article")["views"].last()] *)
Definition last_values (df : frame) : list (string * option Z) :=
  map (fun g => (fst g, last_valid (map views (snd g))))
      (groupby_article (sort_values_date df)).

(** Order of the values of a series, NaN below every number. *)
Definition key_ge (x y : option Z) : bool :=
  match x, y with
  | _, None => true
  | None, Some _ => false
  | Some a, Some b => b <=? a
  end.

(** [Series.nlargest(n)] with the default [keep='first']: the first [n]
    entries in descending order of value, equal values in order of
    appearance, NaN last.  Which entries are returned is fixed by this
    order; it matters only when the series has more than [n] entries. *)
Fixpoint insert_desc (x : string * option Z) (l : list (string * option Z))
  : list (string * option Z) :=
  match l with
  | [] => [x]
  | y :: l' =>
      if key_ge (snd x) (snd y) then x :: l else y :: insert_desc x l'
  end.

Definition sort_desc (s : list (string * option Z))
  : list (string * option Z) :=
  fold_right insert_desc [] s.

Definition nlargest (n : nat) (s : list (string * option Z))
  : list (string * option Z) :=
  firstn n (sort_desc s).

(** [last_values.nlargest(20).index.tolist()] *)
Definition top_articles_of (df : frame) : list string :=
  map fst (nlargest 20 (last_values df)).

(** [df[df["article"].isin(top_articles)]] *)
Definition isin (a : string) (l : list string) : bool :=
  existsb (String.eqb a) l.

Definition restrict_to (top : list string) (df : frame) : frame :=
  filter (fun r => isin (article r) top) df.

(** [pd.DataFrame({"date": date_range}).merge(right, on="date", how="left")]
    where [right] has the columns [date] and [views]: every date of the
    scaffold, in order, once per matching row of [right], or once with NaN
    when nothing matches. *)
Definition merge_left (dates : list Z) (right : list (Z * option Z))
  : list (Z * option Z) :=
  flat_map
    (fun d =>
       match filter (fun p => fst p =? d) right with
       | [] => [(d, None)]
       | ms => map (fun p => (d, snd p)) ms
       end)
    dates.

(** [Series.ffill()]: [prev] is the last value seen so far. *)
Fixpoint ffill_from (prev : option Z) (vs : list (option Z))
  : list (option Z) :=
  match vs with
  | [] => []
  | Some v :: vs' => Some v :: ffill_from (Some v) vs'
  | None :: vs' => prev :: ffill_from prev vs'
  end.

Definition ffill (vs : list (option Z)) : list (option Z) :=
  ffill_from None vs.

(** [isna] on a cell. *)
Definition isna (v : option Z) : bool :=
  match v with
  | None => true
  | Some _ => false
  end.

(** Lines 96 to 98: the scaffold of dates merged with the rows of the
    article. *)
Definition merged_rows (df_top : frame) (dates : list Z) (a : string)
  : list (Z * option Z) :=
  let article_df := filter (fun r => String.eqb (article r) a) df_top in
  merge_left dates (map (fun r => (date r, views r)) article_df).

(** Whether the merge left a date without a number.  The merged column is
    then float64; otherwise it keeps the dtype it had. *)
Definition merge_has_nan (df_top : frame) (dates : list Z) (a : string)
  : bool :=
  existsb isna (map snd (merged_rows df_top dates a)).

(** The body of [for article in top_articles].  Where the merged column is
    float64 its numbers are rounded; this changes nothing in a column that
    was float64 before the merge. *)
Definition article_full (df_top : frame) (dates : list Z) (a : string)
  : frame :=
  let merged := merged_rows df_top dates a in
  let column :=
    if merge_has_nan df_top dates a
    then map (option_map float64_of_Z) (map snd merged)
    else map snd merged in
  let filled := ffill column in
  map (fun p => mkRow (fst p) a (snd p)) (combine (map fst merged) filled).

(** [df_top.dropna(subset=["views"])] *)
Definition has_views (r : row) : bool :=
  match views r with
  | Some _ => true
  | None => false
  end.

Definition dropna_views (df : frame) : frame := filter has_views df.

(** The values of the [views] column that are numbers. *)
Definition views_of (df : frame) : list Z :=
  flat_map (fun r => match views r with Some v => [v] | None => [] end) df.

Definition sumZ (l : list Z) : Z := fold_right Z.add 0 l.

(** The exact mean of integers. *)
Definition meanZ (l : list Z) : Q :=
  (inject_Z (sumZ l) / inject_Z (Z.of_nat (List.length l)))%Q.

Definition sumQ (l : list Q) : Q := fold_right Qplus (0#1)%Q l.

(** The exact mean of rationals. *)
Definition meanQ (l : list Q) : Q :=
  (sumQ l / inject_Z (Z.of_nat (List.length l)))%Q.

(** [valid_views["views"].max()] *)
Definition max_of (l : list Z) : Z :=
  match l with
  | [] => 0
  | x :: l' => fold_left Z.max l' x
  end.

(** [Series.unique()]: the distinct values in order of first appearance;
    [nunique()] is its length. *)
Fixpoint unique (l : list string) : list string :=
  match l with
  | [] => []
  | x :: l' => x :: filter (fun y => negb (String.eqb y x)) (unique l')
  end.

Definition nunique (l : list string) : nat := List.length (unique l).

(** What [main] hands to the plotting calls: the densified frame and the
    three numbers of the title. *)
Record analysis : Type := mkAnalysis {
  top_articles : list string;
  df_plot : frame;
  mean_views : Q;
  max_views : Z;
  unique_articles : nat
}.

Definition MSG_NOT_COLLECTED : string :=
  "Данные для заданного диапазона дат не собраны".
Definition MSG_NO_VIEWS : string :=
  "Нет данных по количеству просмотров".

Definition MSG_NO_COLUMN : string := "Column not found: views".
Definition MSG_NLARGEST_OBJECT : string :=
  "Cannot use method 'nlargest' with dtype object".

(** The list [article_dfs] after the loop of lines 95 to 101. *)
Definition article_dfs_of (df : frame) (start_date end_date : Z)
  : list frame :=
  let top := top_articles_of df in
  let df_top := restrict_to top df in
  let dates := date_range start_date end_date in
  map (article_full df_top dates) top.

(** [pd.concat(article_dfs, ignore_index=True)]: the column is float64 as
    soon as one of the frames has it so. *)
Definition df_plot_of (df : frame) (start_date end_date : Z) : frame :=
  let top := top_articles_of df in
  let df_top := restrict_to top df in
  let dates := date_range start_date end_date in
  let plot := List.concat (article_dfs_of df start_date end_date) in
  if existsb (merge_has_nan df_top dates) top
  then astype_float64 plot
  else plot.

Section Statistics.

Variable lib : pandas.

(** [valid_views.groupby("article")["views"].mean()] *)
Definition mean_views_by_article (valid_views : frame) : list (string * Q) :=
  map (fun g => (fst g, group_mean lib (views_of (snd g))))
      (groupby_article valid_views).

(** Lines 87 to 113 of [main] on a frame [df] whose [views] column is
    numeric: from the concatenated frame to the statistics.  A frame with
    no row has no [article] column, and [pd.concat] refuses an empty
    list. *)
Definition analyse (df : frame) (start_date end_date : Z) : result analysis :=
  match df with
  | [] => Raise (KeyError "article")
  | _ :: _ =>
      let top := top_articles_of df in
      let df_top := restrict_to top df in
      let article_dfs := article_dfs_of df start_date end_date in
      match article_dfs with
      | [] => Raise (ValueError "No objects to concatenate")
      | _ :: _ =>
          let plot := df_plot_of df start_date end_date in
          let valid_views := dropna_views df_top in
          match valid_views with
          | [] => Raise (ValueError MSG_NO_VIEWS)
          | _ :: _ =>
              let by_article := mean_views_by_article valid_views in
              Ok (mkAnalysis top plot
                    (series_mean lib (map snd by_article))
                    (max_of (views_of valid_views))
                    (nunique (map article df)))
          end
      end
  end.

(** Lines 84 to 113 of [main] on the collected day frames.  Without a row
    there is no [article] column to group by; without a [views] column
    line 87 raises [KeyError]; [nlargest] on line 88 refuses a column of
    objects with [TypeError]. *)
Definition analyse_collected (data_frames : list table)
    (start_date end_date : Z) : result analysis :=
  let df := pd_concat lib data_frames in
  match df with
  | [] => Raise (KeyError "article")
  | _ :: _ =>
      match concat_dtype lib data_frames with
      | NoColumn => Raise (KeyError MSG_NO_COLUMN)
      | ObjectDtype => Raise (TypeError MSG_NLARGEST_OBJECT)
      | Int64 | Float64 => analyse df start_date end_date
      end
  end.

End Statistics.

(** ** The collection loop and [main] *)

(** [not data] on a dict. *)
Definition dict_is_empty (d : payload) : bool :=
  match p_items d, p_other_keys d with
  | None, [] => true
  | _, _ => false
  end.

(** ["items" in data] *)
Definition has_items (d : payload) : bool :=
  match p_items d with
  | Some _ => true
  | None => false
  end.

(** [not data or "items" not in data] *)
Definition no_valid_data (data : option payload) : bool :=
  match data with
  | None => true
  | Some d => dict_is_empty d || negb (has_items d)
  end.

(** [data["items"][0]["articles"]] *)
Definition day_articles (d : payload) : result (list entry) :=
  match p_items d with
  | None => Raise (KeyError "items")
  | Some [] => Raise (IndexError "list index out of range")
  | Some (it :: _) =>
      match i_articles it with
      | None => Raise (KeyError "articles")
      | Some es => Ok es
      end
  end.

(** The dtype [pd.DataFrame(articles)] gives the [views] column: there is
    no column when no entry has the key; all integers give int64; all
    [null] gives a column of objects; every other mix (an integer next to
    NaN, [null] or a missing key; NaN; [null] next to a missing key) gives
    float64. *)
Definition has_views_key (e : entry) : bool :=
  match e_field e with
  | ViewsMissing => false
  | _ => true
  end.

Definition is_number (e : entry) : bool :=
  match e_field e with
  | ViewsNumber _ => true
  | _ => false
  end.

Definition is_null (e : entry) : bool :=
  match e_field e with
  | ViewsNull => true
  | _ => false
  end.

Definition day_dtype (es : list entry) : dtype :=
  if negb (existsb has_views_key es) then NoColumn
  else if forallb is_number es then Int64
  else if forallb is_null es then ObjectDtype
  else Float64.

(** The cell of a column of dtype [dt] for the value [v]. *)
Definition cell (dt : dtype) (v : option Z) : option Z :=
  match dt with
  | Float64 => option_map float64_of_Z v
  | _ => v
  end.

(** [pd.DataFrame(articles)] followed by [df_day["date"] = date] *)
Definition day_frame (es : list entry) (d : Z) : table :=
  let dt := day_dtype es in
  mkTable (map (fun e => mkRow d (e_article e) (cell dt (e_views e))) es) dt.

Definition PAUSE : Q := (1 # 10)%Q.
Definition FIGURE_PATH : string := "Exercise-1/top_articles.png".

Section Pipeline.

Variable net : string -> nat -> attempt_result.

(** [date.strftime(format)] *)
Variable strftime : Z -> string -> string.

(** The installed pandas. *)
Variable lib : pandas.

(** The body of [for date in dates], with [data_frames] as accumulator. *)
Fixpoint collect (dates : list Z) (data_frames : list table)
  : M (list table) :=
  match dates with
  | [] => ret data_frames
  | d :: rest =>
      let date_str := strftime d "%Y%m%d" in
      data <- get_top_wiki_articles net "en.wikipedia"
                (strftime d "%Y") (strftime d "%m") (strftime d "%d")
                "all-access" 3 1 ;;
      if no_valid_data data then
        print (MsgSkip date_str) ;;;
        collect rest data_frames
      else
        match data with
        | None => raise (OtherException "NoneType is not subscriptable")
        | Some p =>
            es <- lift (day_articles p) ;;
            let df_day := day_frame es d in
            time_sleep PAUSE ;;;
            collect rest (data_frames ++ [df_day])
        end
  end.

Definition main (start_date end_date : Z) : M analysis :=
  let dates := date_range start_date end_date in
  data_frames <- collect dates [] ;;
  match data_frames with
  | [] => raise (ValueError MSG_NOT_COLLECTED)
  | _ :: _ =>
      out <- lift (analyse_collected lib data_frames start_date end_date) ;;
      emit (EvSavefig FIGURE_PATH) ;;;
      ret out
  end.

End Pipeline.

(** ** Reference definitions used in the statements *)

(** The log of [n] attempts on [url] that all fail, attempt [i] with the
    exception [errs i]: each attempt is a request and a printed failure,
    followed by a sleep of [delay] seconds unless it is the last one; the
    final message closes the log. *)
Definition failed_attempt_log (url : string) (n : nat) (delay : Z)
    (errs : nat -> exn) (i : nat) : list event :=
  [EvGet url; EvPrint (MsgAttemptFailed (Z.of_nat i + 1) (errs i))]
  ++ (if (S i <? n)%nat then [EvSleep (inject_Z delay)] else []).

Definition all_failed_log (url : string) (retries delay : Z)
    (errs : nat -> exn) : list event :=
  flat_map (failed_attempt_log url (Z.to_nat retries) delay errs)
           (seq 0 (Z.to_nat retries))
  ++ [EvPrint (MsgGaveUp retries url)].

(** A network on which every request fails with a connection error. *)
Definition net_down (url : string) (n : nat) : attempt_result :=
  Raised (RequestException "connection refused").

Definition world0 : world := mkWorld 0 [].

(** Whether a figure has been saved in the course of the log. *)
Definition is_savefig (e : event) : bool :=
  match e with
  | EvSavefig _ => true
  | _ => false
  end.

Definition made_figure (w : world) : bool := existsb is_savefig (log w).

(** The pauses of the collection loop recorded in the log. *)
Definition is_pause (e : event) : bool :=
  match e with
  | EvSleep q => Qeq_bool q PAUSE
  | _ => false
  end.

(** An outcome of a request from which a day cannot be used: an exception
    the fetcher catches, or a payload the collector skips. *)
Definition unusable (r : attempt_result) : Prop :=
  match r with
  | Raised e => caught e = true
  | Returned p => no_valid_data (Some p) = true
  end.

(** A date formatter for the examples; its text is not inspected. *)
Definition strftime_id (d : Z) (fmt : string) : string := fmt.

(** A network that answers every request with an error document that has
    no ["items"]. *)
Definition net_no_items (url : string) (n : nat) : attempt_result :=
  Returned (mkPayload None ["detail"]).

(** A network that answers every request with an empty ["items"] list. *)
Definition net_empty_items (url : string) (n : nat) : attempt_result :=
  Returned (mkPayload (Some []) []).

(** A network that answers every request with an item without
    ["articles"]. *)
Definition net_no_articles (url : string) (n : nat) : attempt_result :=
  Returned (mkPayload (Some [mkItem None]) []).

(** A well-formed response body listing [es]. *)
Definition day_payload (es : list entry) : payload :=
  mkPayload (Some [mkItem (Some es)]) [].

(** The scenario of a three-day range whose middle day has no data:
    article A is seen with 10 views on the first day and 30 on the third. *)
Definition net_middle_day_missing (url : string) (n : nat) : attempt_result :=
  match n with
  | 0%nat => Returned (day_payload [mkEntry "A" (Some 10); mkEntry "B" (Some 7)])
  | 1%nat => Returned (mkPayload None ["detail"])
  | _ => Returned (day_payload [mkEntry "A" (Some 30); mkEntry "C" (Some 7)])
  end.

Definition top_url : string :=
  "https://wikimedia.org/api/rest_v1/metrics/pageviews/top/en.wikipedia/all-access/%Y/%m/%d".

(** Strict lexicographic order on article names. *)
Definition slt (a b : string) : Prop := String.ltb a b = true.

(** Rows in ascending order of date. *)
Definition date_le (r1 r2 : row) : Prop := date r1 <= date r2.

(** The order in which [nlargest] ranks the entries of a series indexed by
    article: higher value first, and among equal values the smaller
    article name first. *)
Definition ranks_before (x y : string * option Z) : Prop :=
  key_ge (snd x) (snd y) = true
  /\ (key_ge (snd y) (snd x) = true -> slt (fst x) (fst y)).

(** The chronologically-last observed views value of an article in a
    frame: the views of a row of the article that has a value and whose date
    no row of the article with a value exceeds; absent when no row of the
    article has a value. *)
Definition latest_observed (df : frame) (a : string) (k : option Z) : Prop :=
  match k with
  | Some v =>
      exists r, In r df /\ article r = a /\ views r = Some v
                /\ forall r', In r' df -> article r' = a ->
                               views r' <> None -> date r' <= date r
  | None => forall r, In r df -> article r = a -> views r = None
  end.

(** Twenty-one articles seen on one day with the same number of views. *)
Definition tied_names : list string :=
  ["u"; "t"; "s"; "r"; "q"; "p"; "o"; "n"; "m"; "l"; "k"; "j"; "i"; "h";
   "g"; "f"; "e"; "d"; "c"; "b"; "a"].

Definition df_tied : frame :=
  map (fun a => mkRow 1 a (Some 5)) tied_names.

(** The densification on exact integers, as it is when no number is
    rounded: the body of the loop and the concatenated frame. *)
Definition article_full_exact (df_top : frame) (dates : list Z) (a : string)
  : frame :=
  let merged := merged_rows df_top dates a in
  let filled := ffill (map snd merged) in
  map (fun p => mkRow (fst p) a (snd p)) (combine (map fst merged) filled).

Definition df_plot_exact (df : frame) (start_date end_date : Z) : frame :=
  let top := top_articles_of df in
  List.concat (map (article_full_exact (restrict_to top df)
                      (date_range start_date end_date)) top).

(** Every number of the frame is exact in float64. *)
Definition exact_in_float64 (df : frame) : Prop :=
  forall r v, In r df -> views r = Some v -> Z.abs v <= 2 ^ 53.

(** The (date, article) key of a row. *)
Definition row_key (r : row) : Z * string := (date r, article r).

(** The data model's key: a day's batch lists an article at most once. *)
Definition unique_per_day (df : frame) : Prop :=
  NoDup (map (fun r => (date r, article r)) df).

(** Article [a] has the known value [v] on day [d]. *)
Definition observed (df : frame) (a : string) (d v : Z) : Prop :=
  In (mkRow d a (Some v)) df.

(** The value a forward fill starting at [start_date] shows on day [d]:
    the known value of the most recent day up to [d] that has one, and
    nothing when no day from [start_date] to [d] has one. *)
Definition forward_filled (df : frame) (a : string) (start_date d : Z)
    (x : option Z) : Prop :=
  match x with
  | Some v =>
      exists d0, start_date <= d0 <= d /\ observed df a d0 v
                 /\ forall d' v', d0 < d' <= d -> ~ observed df a d' v'
  | None => forall d' v', start_date <= d' <= d -> ~ observed df a d' v'
  end.

(** The value the left merge finds for article [a] on day [d]. *)
Definition known_at (df : frame) (a : string) (d : Z) : option Z :=
  match filter (fun p => fst p =? d)
               (map (fun r => (date r, views r))
                    (filter (fun r => String.eqb (article r) a) df)) with
  | [] => None
  | p :: _ => snd p
  end.

(** The frame collected in the scenario of [net_middle_day_missing]. *)
Definition df_scenario : frame :=
  [mkRow 1 "A" (Some 10); mkRow 1 "B" (Some 7);
   mkRow 3 "A" (Some 30); mkRow 3 "C" (Some 7)].

(** Equality test on (date, article) keys. *)
Definition key_eqb (x y : Z * string) : bool :=
  (fst x =? fst y) && String.eqb (snd x) (snd y).

(** [valid_views] of [main] for the frame [df]. *)
Definition valid_views_of (df : frame) : frame :=
  dropna_views (restrict_to (top_articles_of df) df).

(** A network on which every day lists one article with NaN for its
    views. *)
Definition net_no_views (url : string) (n : nat) : attempt_result :=
  Returned (day_payload [mkEntry "A" None]).

(** A network on which every day lists one article with ["views": null]. *)
Definition net_null_views (url : string) (n : nat) : attempt_result :=
  Returned (day_payload [mkEntryField "A" ViewsNull]).

(** A network on which every day lists one article without the key
    ["views"]. *)
Definition net_missing_views (url : string) (n : nat) : attempt_result :=
  Returned (day_payload [mkEntryField "A" ViewsMissing]).

(** A network whose first day lists article A with 2^53 + 1 views and
    whose later days have no data. *)
Definition net_big (url : string) (n : nat) : attempt_result :=
  match n with
  | 0%nat => Returned (day_payload [mkEntry "A" (Some (2 ^ 53 + 1))])
  | _ => Returned (mkPayload None ["detail"])
  end.

(** A network on which every day lists the twenty-one articles of
    [tied_names] with the same number of views. *)
Definition net_tied (url : string) (n : nat) : attempt_result :=
  Returned (day_payload (map (fun a => mkEntry a (Some 5)) tied_names)).




(** The mean over all known views, each observation weighing the same. *)
Definition flat_mean (valid : frame) : Q := meanZ (views_of valid).

(** The value of a computation that succeeded. *)
Definition value_of (r : result analysis) : analysis :=
  match r with
  | Ok out => out
  | Raise _ => mkAnalysis [] [] (0 # 1)%Q 0 0
  end.

(** The library of the examples: exact means, and [pd.concat] as pandas 3
    does it (a column of objects is kept). *)
Definition exact_lib : pandas := mkPandas meanZ meanQ (fun _ => false).

(** A library that differs from [exact_lib] in [pd.concat] alone: float64
    wins wherever the versions of pandas can differ. *)
Definition legacy_lib : pandas := mkPandas meanZ meanQ (fun _ => true).

(** What [main] computes in the scenario of [net_middle_day_missing]. *)
Definition out_scenario : analysis :=
  value_of (fst (main net_middle_day_missing strftime_id exact_lib 1 3
                   world0)).

(** Article A is seen three days with 10 views, article B one day with 40:
    the mean of the two means is 25, the flat mean 17.5. *)
Definition df_two_articles : frame :=
  [mkRow 1 "A" (Some 10); mkRow 2 "A" (Some 10);
   mkRow 3 "A" (Some 10); mkRow 3 "B" (Some 40)].


(** The frames of a collection that succeeded. *)
Definition value_of_frames (r : result (list table)) : list table :=
  match r with
  | Ok frames => frames
  | Raise _ => []
  end.

(** The log of a failed attempt that is followed by another one: the
    request, the printed failure and the sleep. *)
Definition retried_attempt_log (url : string) (delay : Z) (errs : nat -> exn)
    (i : nat) : list event :=
  [EvGet url; EvPrint (MsgAttemptFailed (Z.of_nat i + 1) (errs i));
   EvSleep (inject_Z delay)].

(** The requests of a log. *)
Definition is_get (e : event) : bool :=
  match e with
  | EvGet _ => true
  | _ => false
  end.

Definition count_gets (evs : list event) : nat :=
  List.length (filter is_get evs).

(** The URL [main] requests for day [d]. *)
Definition day_url (strftime : Z -> string -> string) (d : Z) : string :=
  ("https://wikimedia.org/api/rest_v1/metrics/pageviews/top/en.wikipedia/all-access/"
   ++ strftime d "%Y" ++ "/" ++ strftime d "%m" ++ "/" ++ strftime d "%d")%string.

(** A network whose first request fails and whose later requests return one
    article. *)
Definition net_flaky (url : string) (n : nat) : attempt_result :=
  match n with
  | 0%nat => Raised (RequestException "timeout")
  | _ => Returned (day_payload [mkEntry "A" (Some 10)])
  end.

(** A network whose first request fails and whose second raises an
    exception the fetcher does not catch. *)
Definition net_crash (url : string) (n : nat) : attempt_result :=
  match n with
  | 0%nat => Raised (RequestException "timeout")
  | _ => Raised (OtherException "KeyboardInterrupt")
  end.

(** From [w] to [w'] the log grew by events that hold at most [bound]
    requests, each to a URL satisfying [P], and the request counter grew by
    their number. *)
Definition run_trace (w w' : world) (bound : nat) (P : string -> Prop)
  : Prop :=
  exists evs,
    log w' = log w ++ evs
    /\ requests_made w' = (requests_made w + count_gets evs)%nat
    /\ (count_gets evs <= bound)%nat
    /\ forall u, In (EvGet u) evs -> P u.

(** A network that answers every request at once; the n-th request of the
    run returns article A with [n] views. *)
Definition net_healthy (url : string) (n : nat) : attempt_result :=
  Returned (day_payload [mkEntry "A" (Some (Z.of_nat n))]).

Definition answers_healthy (url : string) (n : nat) : list entry :=
  [mkEntry "A" (Some (Z.of_nat n))].


(** Merged rows in ascending order of date. *)
Definition fst_le (p q : Z * option Z) : Prop := fst p <= fst q.

(** ** The script *)

(** How a run of the script ends: [SystemExit] with a message, or the end
    of [main] (normally or with an exception that nothing catches). *)
Inductive script_outcome : Type :=
| SystemExit (msg : string)
| Completed (r : result analysis).

Definition MSG_BAD_FORMAT : string := "Неправильный формат даты: ".
Definition MSG_END_BEFORE_START : string :=
  "Дата окончания должна быть после даты начала".

Section Script.

Variable net : string -> nat -> attempt_result.
Variable strftime : Z -> string -> string.
Variable lib : pandas.

(** [dt.datetime.strptime(text, format)]: the day, or the exception
    raised. *)
Variable strptime : string -> string -> result Z.

(** The [try] block of the script: both dates are parsed, and a
    [ValueError] of either becomes a [SystemExit]. *)
Definition parse_dates (arg_start arg_end : string)
  : script_outcome + Z * Z :=
  match strptime arg_start "%Y%m%d" with
  | Raise (ValueError e) => inl (SystemExit (MSG_BAD_FORMAT ++ e))
  | Raise e => inl (Completed (Raise e))
  | Ok start_date =>
      match strptime arg_end "%Y%m%d" with
      | Raise (ValueError e) => inl (SystemExit (MSG_BAD_FORMAT ++ e))
      | Raise e => inl (Completed (Raise e))
      | Ok end_date => inr (start_date, end_date)
      end
  end.

(** The block under [if __name__ == "__main__"], given the two positional
    arguments. *)
Definition script (arg_start arg_end : string) (w : world)
  : script_outcome * world :=
  match parse_dates arg_start arg_end with
  | inl stop => (stop, w)
  | inr (start_date, end_date) =>
      if end_date <? start_date
      then (SystemExit MSG_END_BEFORE_START, w)
      else
        let run := main net strftime lib start_date end_date w in
        (Completed (fst run), snd run)
  end.

End Script.

(* ================================================================== *)
(** * Properties *)

(** ** The effect monad *)

Lemma time_sleep_nonneg (z : Z) w :
  0 <= z ->
  time_sleep (inject_Z z) w
  = (Ok tt, mkWorld (requests_made w) (log w ++ [EvSleep (inject_Z z)])).
Proof.
  intros Hz. unfold time_sleep. simpl.
  destruct (z <? 0) eqn:E; [apply Z.ltb_lt in E; lia | reflexivity].
Qed.

(** ** The fetcher *)

Section FetcherFacts.

Variable net : string -> nat -> attempt_result.
Variables (url : string) (retries delay : Z) (errs : nat -> exn).

Lemma api_loop_all_fail (n0 : nat) :
  0 <= delay ->
  forall m k w,
    (k + m = Z.to_nat retries)%nat ->
    requests_made w = (n0 + k)%nat ->
    (forall i, (k <= i < k + m)%nat ->
               net url (n0 + i) = Raised (errs i)
               /\ caught (errs i) = true) ->
    api_loop net url retries delay (map Z.of_nat (seq k m)) w
    = (Ok None,
       mkWorld (n0 + k + m)
         (log w
          ++ flat_map (failed_attempt_log url (Z.to_nat retries) delay errs)
                      (seq k m)
          ++ [EvPrint (MsgGaveUp retries url)])).
Proof.
  intros Hd m. induction m as [|m IH]; intros k w Hkm Hw Hall.
  - simpl. unfold bind, print, emit, ret. simpl.
    rewrite Hw. now rewrite Nat.add_0_r.
  - cbn [seq map api_loop].
    destruct (Hall k ltac:(lia)) as [Hnet Hc].
    unfold bind at 1. unfold requests_get at 1. rewrite Hw, Hnet, Hc.
    unfold bind at 1. unfold print at 1, emit at 1.
    unfold bind at 1.
    assert (Hcond : (Z.of_nat k <? retries - 1) = (S k <? Z.to_nat retries)%nat).
    { destruct (Z.of_nat k <? retries - 1) eqn:E1;
        destruct (S k <? Z.to_nat retries)%nat eqn:E2; try reflexivity.
      - apply Z.ltb_lt in E1. apply Nat.ltb_ge in E2. lia.
      - apply Z.ltb_ge in E1. apply Nat.ltb_lt in E2. lia. }
    rewrite Hcond.
    destruct (S k <? Z.to_nat retries)%nat eqn:E.
    + rewrite time_sleep_nonneg by exact Hd.
      rewrite IH; cbn [requests_made log];
        try lia; try (intros i Hi; apply Hall; lia).
      f_equal. f_equal; [lia|].
      cbn [flat_map]. unfold failed_attempt_log at 2. rewrite E.
      repeat rewrite <- app_assoc. reflexivity.
    + unfold ret at 1.
      rewrite IH; cbn [requests_made log];
        try lia; try (intros i Hi; apply Hall; lia).
      f_equal. f_equal; [lia|].
      cbn [flat_map]. unfold failed_attempt_log at 2. rewrite E.
      repeat rewrite <- app_assoc. reflexivity.
Qed.

End FetcherFacts.

(** C5. When every one of the [retries] attempts fails with an exception
    the [except] clause names, [__api__] returns [None] without raising,
    and its log is one request and one printed failure per attempt, with a
    sleep of [delay] seconds after each failed attempt but the last. *)
Theorem api_returns_none_when_all_attempts_fail
    (net : string -> nat -> attempt_result)
    (end_point args api_url : string) (retries delay : Z)
    (errs : nat -> exn) (w : world) :
  let url := (api_url ++ "/" ++ end_point ++ "/" ++ args)%string in
  0 <= delay ->
  (forall i, (i < Z.to_nat retries)%nat ->
             net url (requests_made w + i)%nat = Raised (errs i)
             /\ caught (errs i) = true) ->
  fst (__api__ net end_point args api_url retries delay w) = Ok None
  /\ log (snd (__api__ net end_point args api_url retries delay w))
     = log w ++ all_failed_log url retries delay errs.
Proof.
  intros url Hd Hall. unfold __api__, range. fold url.
  rewrite (api_loop_all_fail net url retries delay errs (requests_made w) Hd
             (Z.to_nat retries) 0 w); try lia.
  - split; reflexivity.
  - intros i Hi. apply Hall. lia.
Qed.

Lemma api_returns_none_when_all_attempts_fail_witness :
  fst (__api__ net_down "pageviews/top" "en.wikipedia/all-access/2024/01/01"
         "https://example.org" 3 1 world0) = Ok None
  /\ log (snd (__api__ net_down "pageviews/top"
                 "en.wikipedia/all-access/2024/01/01"
                 "https://example.org" 3 1 world0))
     = log world0
       ++ all_failed_log
            "https://example.org/pageviews/top/en.wikipedia/all-access/2024/01/01"
            3 1 (fun _ => RequestException "connection refused").
Proof.
  apply (api_returns_none_when_all_attempts_fail net_down
           "pageviews/top" "en.wikipedia/all-access/2024/01/01"
           "https://example.org" 3 1
           (fun _ => RequestException "connection refused") world0).
  - lia.
  - intros i _. split; reflexivity.
Defined.

(** ** The collection loop *)

Lemma made_figure_emit n n' l e :
  made_figure (mkWorld n (l ++ [e]))
  = made_figure (mkWorld n' l) || is_savefig e.
Proof.
  unfold made_figure. cbn [log]. rewrite existsb_app. simpl.
  now rewrite orb_false_r.
Qed.

Lemma time_sleep_no_figure q w :
  made_figure (snd (time_sleep q w)) = made_figure w.
Proof.
  unfold time_sleep. destruct (Qnum q <? 0); simpl; [reflexivity|].
  rewrite (made_figure_emit _ 0). simpl. now rewrite orb_false_r.
Qed.

Section CollectorFacts.

Variable net : string -> nat -> attempt_result.
Variable strftime : Z -> string -> string.

Lemma api_loop_no_figure url retries delay attempts :
  forall w,
    made_figure (snd (api_loop net url retries delay attempts w))
    = made_figure w.
Proof.
  induction attempts as [|a rest IH]; intros w.
  - simpl. unfold bind, print, emit, ret. simpl.
    rewrite (made_figure_emit _ 0). simpl. now rewrite orb_false_r.
  - cbn [api_loop]. unfold bind at 1. unfold requests_get at 1.
    assert (Hget : made_figure
                     (mkWorld (S (requests_made w)) (log w ++ [EvGet url]))
                   = made_figure w).
    { rewrite (made_figure_emit _ 0). simpl. now rewrite orb_false_r. }
    destruct (net url (requests_made w)) as [data|e].
    + unfold ret. simpl. exact Hget.
    + destruct (caught e).
      * unfold bind at 1. unfold print at 1, emit at 1.
        cbn [requests_made log].
        set (w1 := mkWorld _ ((log w ++ [EvGet url]) ++ _)).
        assert (H1 : made_figure w1 = made_figure w).
        { unfold w1. rewrite (made_figure_emit _ 0). simpl.
          rewrite orb_false_r. rewrite <- Hget. reflexivity. }
        unfold bind at 1.
        destruct (a <? retries - 1).
        -- pose proof (time_sleep_no_figure (inject_Z delay) w1) as Hs.
           destruct (time_sleep (inject_Z delay) w1) as [[[]|e'] w2];
             simpl in Hs.
           ++ rewrite IH. congruence.
           ++ simpl. congruence.
        -- unfold ret at 1. rewrite IH. exact H1.
      * unfold raise. simpl. exact Hget.
Qed.

Lemma get_top_no_figure project year month day access retries delay w :
  made_figure
    (snd (get_top_wiki_articles net project year month day access
            retries delay w))
  = made_figure w.
Proof. apply api_loop_no_figure. Qed.

Lemma collect_no_figure dates :
  forall data_frames w,
    made_figure (snd (collect net strftime dates data_frames w))
    = made_figure w.
Proof.
  induction dates as [|d rest IH]; intros data_frames w.
  - reflexivity.
  - cbn [collect]. unfold bind at 1.
    pose proof (get_top_no_figure "en.wikipedia" (strftime d "%Y")
                  (strftime d "%m") (strftime d "%d") "all-access" 3 1 w)
      as Hg.
    destruct (get_top_wiki_articles net "en.wikipedia" (strftime d "%Y")
                (strftime d "%m") (strftime d "%d") "all-access" 3 1 w)
      as [[data|e] w1]; simpl in Hg; [|simpl; exact Hg].
    destruct (no_valid_data data).
    + unfold bind at 1. unfold print at 1, emit at 1.
      rewrite IH. rewrite (made_figure_emit _ 0). simpl.
      rewrite orb_false_r. exact Hg.
    + destruct data as [p|]; [|unfold raise; simpl; exact Hg].
      unfold bind at 1. unfold lift at 1.
      destruct (day_articles p) as [es|e]; [|simpl; exact Hg].
      unfold bind at 1.
      pose proof (time_sleep_no_figure PAUSE w1) as Hs.
      destruct (time_sleep PAUSE w1) as [[[]|e'] w2]; simpl in Hs.
      * rewrite IH. congruence.
      * simpl. congruence.
Qed.

(** When nothing usable ever comes back, each fetch ends with a value the
    collector skips. *)
Hypothesis all_unusable : forall url n, unusable (net url n).

Lemma api_loop_unusable url retries delay attempts :
  0 <= delay ->
  forall w, exists data w',
    api_loop net url retries delay attempts w = (Ok data, w')
    /\ no_valid_data data = true.
Proof.
  intros Hd. induction attempts as [|a rest IH]; intros w.
  - simpl. unfold bind, print, emit, ret. simpl.
    eexists _, _. split; reflexivity.
  - cbn [api_loop]. unfold bind at 1. unfold requests_get at 1.
    pose proof (all_unusable url (requests_made w)) as Hu.
    destruct (net url (requests_made w)) as [data|e]; simpl in Hu.
    + unfold ret. eexists _, _. split; [reflexivity|exact Hu].
    + rewrite Hu. unfold bind at 1. unfold print at 1, emit at 1.
      unfold bind at 1.
      destruct (a <? retries - 1).
      * rewrite time_sleep_nonneg by exact Hd. apply IH.
      * unfold ret at 1. apply IH.
Qed.

Lemma collect_all_skipped dates :
  forall data_frames w, exists w',
    collect net strftime dates data_frames w = (Ok data_frames, w').
Proof.
  induction dates as [|d rest IH]; intros data_frames w.
  - eexists. reflexivity.
  - cbn [collect]. unfold bind at 1.
    unfold get_top_wiki_articles, __api__.
    destruct (api_loop_unusable
                (API_BASE_URL ++ "/" ++ TOP_ENDPOINT ++ "/"
                 ++ TOP_ARGS "en.wikipedia" "all-access" (strftime d "%Y")
                      (strftime d "%m") (strftime d "%d"))%string
                3 1 (range 3) ltac:(lia) w) as (data & w1 & Hrun & Hskip).
    rewrite Hrun, Hskip.
    unfold bind at 1. unfold print at 1, emit at 1. apply IH.
Qed.

End CollectorFacts.

(** C4. When no request of the run yields usable data (each one fails with
    a caught exception or returns a payload the collector skips), [main]
    raises the "not collected" [ValueError] and saves no figure. *)
Theorem main_raises_when_nothing_collected
    (net : string -> nat -> attempt_result)
    (strftime : Z -> string -> string)
    (lib : pandas)
    (start_date end_date : Z) (w : world) :
  (forall url n, unusable (net url n)) ->
  fst (main net strftime lib start_date end_date w)
  = Raise (ValueError MSG_NOT_COLLECTED)
  /\ made_figure (snd (main net strftime lib start_date end_date w))
     = made_figure w.
Proof.
  intros Hall. unfold main.
  destruct (collect_all_skipped net strftime Hall
              (date_range start_date end_date) [] w) as (w' & Hc).
  pose proof (collect_no_figure net strftime
                (date_range start_date end_date) [] w) as Hf.
  unfold bind. rewrite Hc in *. simpl in *. split; [reflexivity|exact Hf].
Qed.

Lemma main_raises_when_nothing_collected_witness :
  fst (main net_down strftime_id exact_lib 1 3 world0)
  = Raise (ValueError MSG_NOT_COLLECTED)
  /\ made_figure (snd (main net_down strftime_id exact_lib 1 3 world0))
     = made_figure world0.
Proof.
  apply (main_raises_when_nothing_collected net_down strftime_id exact_lib
           1 3 world0).
  intros url n. reflexivity.
Defined.

(** C6. A day whose payload has the key ["items"] but not the article list
    behind it is not skipped: indexing raises out of the loop, and the
    following days are never requested.  (A day that is absent or has no
    ["items"] is skipped, see [collect_all_skipped].) *)
Theorem malformed_day_aborts_collection
    (lib : pandas) :
  collect net_empty_items strftime_id (date_range 1 3) [] world0
  = (Raise (IndexError "list index out of range"),
     mkWorld 1 [EvGet top_url])
  /\ collect net_no_articles strftime_id (date_range 1 3) [] world0
     = (Raise (KeyError "articles"), mkWorld 1 [EvGet top_url])
  /\ fst (main net_empty_items strftime_id lib 1 3 world0)
     = Raise (IndexError "list index out of range").
Proof. repeat split; vm_compute; reflexivity. Qed.

(** C9. The pause follows only the days that yielded a frame: on a
    skipped day [continue] is reached before [time.sleep(0.1)].  With the
    middle day of three skipped, the log holds two pauses, and none between
    the skipped day and the next request; with every day skipped it holds
    none. *)
Theorem no_pause_after_skipped_day :
  log (snd (collect net_middle_day_missing strftime_id (date_range 1 3) []
              world0))
  = [EvGet top_url; EvSleep PAUSE;
     EvGet top_url; EvPrint (MsgSkip "%Y%m%d");
     EvGet top_url; EvSleep PAUSE]
  /\ List.length
       (filter is_pause
          (log (snd (collect net_middle_day_missing strftime_id
                       (date_range 1 3) [] world0)))) = 2%nat
  /\ log (snd (collect net_no_items strftime_id (date_range 1 3) [] world0))
     = [EvGet top_url; EvPrint (MsgSkip "%Y%m%d");
        EvGet top_url; EvPrint (MsgSkip "%Y%m%d");
        EvGet top_url; EvPrint (MsgSkip "%Y%m%d")].
Proof. repeat split; vm_compute; reflexivity. Qed.

(** ** Order on article names *)

Lemma slt_iff a b : slt a b <-> String_as_OT.lt a b.
Proof.
  unfold slt, String.ltb. rewrite <- String_as_OT.cmp_lt.
  unfold String_as_OT.cmp.
  destruct (String.compare a b); split; congruence.
Qed.

Lemma slt_trans a b c : slt a b -> slt b c -> slt a c.
Proof. rewrite !slt_iff. apply String_as_OT.lt_trans. Qed.

Lemma slt_irrefl a : ~ slt a a.
Proof.
  rewrite slt_iff. intros H.
  apply (String_as_OT.lt_not_eq _ _ H). reflexivity.
Qed.

Lemma slt_asym a b : slt a b -> ~ slt b a.
Proof. intros H1 H2. exact (slt_irrefl a (slt_trans _ _ _ H1 H2)). Qed.

Lemma slt_connex a b : a <> b -> ~ slt a b -> slt b a.
Proof.
  unfold slt, String.ltb. intros Hne Hnlt.
  rewrite (String.compare_antisym b a).
  destruct (String.compare a b) eqn:E; simpl.
  - apply String.compare_eq_iff in E. contradiction.
  - congruence.
  - reflexivity.
Qed.

(** ** Sorting by date *)

Lemma insert_by_date_perm r l : Permutation (insert_by_date r l) (r :: l).
Proof.
  induction l as [|r' l IH]; simpl; [reflexivity|].
  destruct (date r <=? date r'); [reflexivity|].
  rewrite IH. apply perm_swap.
Qed.

Lemma sort_values_date_perm df : Permutation (sort_values_date df) df.
Proof.
  induction df as [|r df IH]; simpl; [reflexivity|].
  rewrite insert_by_date_perm. now constructor.
Qed.

Lemma insert_by_date_sorted r l :
  StronglySorted date_le l -> StronglySorted date_le (insert_by_date r l).
Proof.
  induction 1 as [|r' l Hs IH Hall]; simpl.
  - repeat constructor.
  - destruct (date r <=? date r') eqn:E.
    + apply Z.leb_le in E. constructor.
      * now constructor.
      * constructor; [exact E|].
        eapply Forall_impl; [|exact Hall].
        unfold date_le. intros x Hx. lia.
    + apply Z.leb_gt in E. constructor; [exact IH|].
      eapply Permutation_Forall.
      * symmetry. apply insert_by_date_perm.
      * constructor; [unfold date_le; lia|exact Hall].
Qed.

Lemma sort_values_date_sorted df :
  StronglySorted date_le (sort_values_date df).
Proof.
  induction df as [|r df IH]; simpl; [constructor|].
  now apply insert_by_date_sorted.
Qed.

Lemma sort_values_date_in r df : In r (sort_values_date df) <-> In r df.
Proof.
  split; apply Permutation_in;
    [apply sort_values_date_perm | symmetry; apply sort_values_date_perm].
Qed.

(** ** Grouping by article *)

Lemma insert_key_in k k0 ks : In k (insert_key k0 ks) <-> k = k0 \/ In k ks.
Proof.
  induction ks as [|k' ks IH]; simpl.
  - intuition.
  - destruct (String.eqb_spec k0 k') as [->|Hne].
    + simpl. intuition.
    + destruct (String.ltb k0 k'); simpl; rewrite ?IH; intuition.
Qed.

Lemma group_keys_in k df : In k (group_keys df) <-> In k (map article df).
Proof.
  unfold group_keys. induction (map article df) as [|a l IH]; simpl.
  - reflexivity.
  - rewrite insert_key_in, IH. intuition.
Qed.

Lemma insert_key_sorted k ks :
  StronglySorted slt ks -> StronglySorted slt (insert_key k ks).
Proof.
  induction 1 as [|k' ks Hs IH Hall]; simpl.
  - repeat constructor.
  - destruct (String.eqb_spec k k') as [->|Hne].
    + now constructor.
    + destruct (String.ltb k k') eqn:E.
      * constructor; [now constructor|].
        constructor; [exact E|].
        eapply Forall_impl; [|exact Hall].
        intros x Hx. exact (slt_trans _ _ _ E Hx).
      * constructor; [exact IH|].
        apply Forall_forall. intros x Hx.
        apply insert_key_in in Hx. destruct Hx as [->|Hx].
        -- apply slt_connex; [congruence|].
           unfold slt. now rewrite E.
        -- rewrite Forall_forall in Hall. now apply Hall.
Qed.

Lemma group_keys_sorted df : StronglySorted slt (group_keys df).
Proof.
  unfold group_keys. induction (map article df) as [|a l IH]; simpl.
  - constructor.
  - now apply insert_key_sorted.
Qed.

Lemma sorted_slt_NoDup ks : StronglySorted slt ks -> NoDup ks.
Proof.
  induction 1 as [|k ks Hs IH Hall]; constructor; [|exact IH].
  intros Hin. rewrite Forall_forall in Hall.
  exact (slt_irrefl k (Hall k Hin)).
Qed.

Lemma group_keys_NoDup df : NoDup (group_keys df).
Proof. apply sorted_slt_NoDup, group_keys_sorted. Qed.

Lemma group_rows_in r k df :
  In r (group_rows k df) <-> In r df /\ article r = k.
Proof.
  unfold group_rows. rewrite filter_In.
  destruct (String.eqb_spec (article r) k); intuition congruence.
Qed.

Lemma filter_StronglySorted {A} (R : A -> A -> Prop) (f : A -> bool) l :
  StronglySorted R l -> StronglySorted R (filter f l).
Proof.
  induction 1 as [|x l Hs IH Hall]; simpl; [constructor|].
  destruct (f x); [|exact IH].
  constructor; [exact IH|].
  apply Forall_forall. intros y Hy. apply filter_In in Hy.
  rewrite Forall_forall in Hall. now apply Hall.
Qed.

(** ** The ranking key *)

Lemma last_valid_spec g :
  StronglySorted date_le g ->
  match last_valid (map views g) with
  | Some v =>
      exists r, In r g /\ views r = Some v
                /\ forall r', In r' g -> views r' <> None ->
                               date r' <= date r
  | None => forall r, In r g -> views r = None
  end.
Proof.
  induction 1 as [|r0 g Hs IH Hall]; simpl.
  - intros r [].
  - rewrite Forall_forall in Hall.
    destruct (last_valid (map views g)) as [v|].
    + destruct IH as (r & Hin & Hv & Hmax).
      exists r. split; [now right|]. split; [exact Hv|].
      intros r' [<-|Hin'] Hsome.
      * apply (Hall r Hin).
      * now apply Hmax.
    + destruct (views r0) as [v|] eqn:E.
      * exists r0. split; [now left|]. split; [exact E|].
        intros r' [<-|Hin'] Hsome; [lia|].
        exfalso. apply Hsome. now apply IH.
      * intros r [<-|Hin]; [exact E|now apply IH].
Qed.

Lemma last_values_keys df :
  map fst (last_values df) = group_keys (sort_values_date df).
Proof.
  unfold last_values, groupby_article. rewrite !map_map. simpl.
  now rewrite map_id.
Qed.

Lemma last_values_in a k df :
  In (a, k) (last_values df) ->
  In a (map article df)
  /\ k = last_valid (map views (group_rows a (sort_values_date df))).
Proof.
  unfold last_values, groupby_article. rewrite map_map. simpl.
  intros H. apply in_map_iff in H. destruct H as (a' & Heq & Hin).
  injection Heq as -> <-. split; [|reflexivity].
  apply group_keys_in in Hin. apply in_map_iff in Hin.
  destruct Hin as (r & <- & Hr). apply in_map.
  now apply sort_values_date_in.
Qed.

Lemma last_values_complete a df :
  In a (map article df) -> exists k, In (a, k) (last_values df).
Proof.
  intros H. unfold last_values, groupby_article. rewrite map_map. simpl.
  eexists. apply in_map_iff. exists a. split; [reflexivity|].
  apply group_keys_in. apply in_map_iff in H. destruct H as (r & <- & Hr).
  apply in_map. now apply sort_values_date_in.
Qed.

Lemma last_values_latest a k df :
  In (a, k) (last_values df) -> latest_observed df a k.
Proof.
  intros H. apply last_values_in in H. destruct H as [_ ->].
  pose proof (last_valid_spec (group_rows a (sort_values_date df))
                (filter_StronglySorted _ _ _ (sort_values_date_sorted df)))
    as Hspec.
  unfold latest_observed.
  destruct (last_valid _) as [v|].
  - destruct Hspec as (r & Hin & Hv & Hmax).
    apply group_rows_in in Hin. destruct Hin as [Hin Ha].
    exists r. split; [now apply sort_values_date_in|].
    split; [exact Ha|]. split; [exact Hv|].
    intros r' Hin' Ha' Hsome. apply Hmax; [|exact Hsome].
    apply group_rows_in. split; [now apply sort_values_date_in|exact Ha'].
  - intros r Hin Ha. apply Hspec. apply group_rows_in.
    split; [now apply sort_values_date_in|exact Ha].
Qed.

Lemma last_values_NoDup df : NoDup (map fst (last_values df)).
Proof. rewrite last_values_keys. apply group_keys_NoDup. Qed.

Lemma last_values_functional df a k k' :
  In (a, k) (last_values df) -> In (a, k') (last_values df) -> k = k'.
Proof.
  intros H H'. apply last_values_in in H, H'.
  destruct H as [_ ->], H' as [_ ->]. reflexivity.
Qed.

(** ** Selecting the largest entries *)

Lemma key_ge_refl k : key_ge k k = true.
Proof. destruct k; simpl; [apply Z.leb_refl|reflexivity]. Qed.

Lemma key_ge_total x y : key_ge x y = false -> key_ge y x = true.
Proof.
  destruct x, y; simpl; try congruence.
  intros H. apply Z.leb_gt in H. apply Z.leb_le. lia.
Qed.

Lemma key_ge_trans x y z :
  key_ge x y = true -> key_ge y z = true -> key_ge x z = true.
Proof.
  destruct x, y, z; simpl; try congruence.
  rewrite !Z.leb_le. lia.
Qed.

Lemma insert_desc_perm x l : Permutation (insert_desc x l) (x :: l).
Proof.
  induction l as [|y l IH]; simpl; [reflexivity|].
  destruct (key_ge (snd x) (snd y)); [reflexivity|].
  rewrite IH. apply perm_swap.
Qed.

Lemma sort_desc_perm s : Permutation (sort_desc s) s.
Proof.
  induction s as [|x s IH]; simpl; [reflexivity|].
  rewrite insert_desc_perm. now constructor.
Qed.

Lemma insert_desc_sorted x l :
  StronglySorted ranks_before l ->
  Forall (fun y => slt (fst x) (fst y)) l ->
  StronglySorted ranks_before (insert_desc x l).
Proof.
  induction 1 as [|y l Hs IH Hall]; intros Hx; simpl.
  - repeat constructor.
  - inversion Hx as [|? ? Hxy Hxl]; subst.
    destruct (key_ge (snd x) (snd y)) eqn:E.
    + constructor; [now constructor|].
      constructor; [split; [exact E|intros _; exact Hxy]|].
      rewrite Forall_forall in *. intros z Hz. split.
      * apply (key_ge_trans _ (snd y)); [exact E|apply (Hall z Hz)].
      * intros _. now apply Hxl.
    + constructor; [now apply IH|].
      eapply Permutation_Forall.
      * symmetry. apply insert_desc_perm.
      * constructor; [|exact Hall].
        split; [now apply key_ge_total|]. congruence.
Qed.

Lemma sort_desc_sorted s :
  StronglySorted slt (map fst s) ->
  StronglySorted ranks_before (sort_desc s).
Proof.
  induction s as [|x s IH]; simpl; intros Hs; [constructor|].
  inversion Hs as [|? ? Hs' Hall]; subst.
  apply insert_desc_sorted; [now apply IH|].
  eapply Permutation_Forall; [symmetry; apply sort_desc_perm|].
  rewrite Forall_forall in *. intros y Hy. apply Hall. now apply in_map.
Qed.

Lemma sorted_firstn_skipn {A} (R : A -> A -> Prop) l :
  StronglySorted R l ->
  forall n a b, In a (firstn n l) -> In b (skipn n l) -> R a b.
Proof.
  induction 1 as [|x l Hs IH Hall]; intros n a b Ha Hb.
  - destruct n; destruct Ha.
  - destruct n as [|n]; simpl in *; [destruct Ha|].
    destruct Ha as [<-|Ha].
    + rewrite Forall_forall in Hall. apply Hall.
      rewrite <- (firstn_skipn n l). apply in_or_app. now right.
    + now apply (IH n).
Qed.

Lemma nlargest_split n s x :
  In x s -> In x (nlargest n s) \/ In x (skipn n (sort_desc s)).
Proof.
  intros H. unfold nlargest. apply in_app_or.
  rewrite firstn_skipn.
  eapply Permutation_in; [symmetry; apply sort_desc_perm|exact H].
Qed.

Lemma nlargest_in n s x : In x (nlargest n s) -> In x s.
Proof.
  intros H. eapply Permutation_in; [apply sort_desc_perm|].
  unfold nlargest in H. rewrite <- (firstn_skipn n (sort_desc s)).
  apply in_or_app. now left.
Qed.

Lemma top_articles_in_iff df a k :
  In (a, k) (last_values df) ->
  (In a (top_articles_of df) <-> In (a, k) (nlargest 20 (last_values df))).
Proof.
  intros Hk. unfold top_articles_of. split.
  - intros H. apply in_map_iff in H. destruct H as ([a' k'] & Heq & Hin).
    simpl in Heq. subst a'.
    rewrite (last_values_functional df a k k' Hk (nlargest_in _ _ _ Hin)).
    exact Hin.
  - intros H. change a with (fst (a, k)). now apply in_map.
Qed.

Lemma top_articles_rank df a b ka kb :
  In (a, ka) (last_values df) -> In (b, kb) (last_values df) ->
  In a (top_articles_of df) -> ~ In b (top_articles_of df) ->
  ranks_before (a, ka) (b, kb).
Proof.
  intros Ha Hb Hin Hout.
  rewrite (top_articles_in_iff df a ka Ha) in Hin.
  rewrite (top_articles_in_iff df b kb Hb) in Hout.
  destruct (nlargest_split 20 _ _ Hb) as [Hb'|Hb']; [contradiction|].
  apply (sorted_firstn_skipn ranks_before (sort_desc (last_values df)))
    with (n := 20%nat); [|exact Hin|exact Hb'].
  apply sort_desc_sorted. rewrite last_values_keys.
  apply group_keys_sorted.
Qed.

Lemma distinct_articles_length df :
  List.length (last_values df)
  = List.length (nodup string_dec (map article df)).
Proof.
  rewrite <- (List.length_map fst (last_values df)), last_values_keys.
  apply Permutation_length. apply NoDup_Permutation.
  - apply group_keys_NoDup.
  - apply NoDup_nodup.
  - intros a. rewrite group_keys_in, nodup_In. split; intros H.
    + apply in_map_iff in H. destruct H as (r & <- & Hr).
      apply in_map. now apply sort_values_date_in.
    + apply in_map_iff in H. destruct H as (r & <- & Hr).
      apply in_map. now apply sort_values_date_in.
Qed.

Lemma top_articles_length df :
  List.length (top_articles_of df)
  = Nat.min 20 (List.length (nodup string_dec (map article df))).
Proof.
  unfold top_articles_of, nlargest.
  rewrite List.length_map, List.length_firstn.
  rewrite (Permutation_length (sort_desc_perm (last_values df))).
  now rewrite distinct_articles_length.
Qed.

Lemma top_articles_NoDup df : NoDup (top_articles_of df).
Proof.
  unfold top_articles_of, nlargest.
  rewrite <- firstn_map.
  assert (H : NoDup (map fst (sort_desc (last_values df)))).
  { eapply Permutation_NoDup; [|apply (last_values_NoDup df)].
    apply Permutation_map. symmetry. apply sort_desc_perm. }
  rewrite <- (firstn_skipn 20 (map fst (sort_desc (last_values df)))) in H.
  now apply NoDup_app_remove_r in H.
Qed.

Lemma top_articles_subset df a :
  In a (top_articles_of df) -> In a (map article df).
Proof.
  unfold top_articles_of. intros H. apply in_map_iff in H.
  destruct H as ([a' k] & Heq & Hin). simpl in Heq. subst a'.
  apply nlargest_in in Hin. now apply last_values_in in Hin.
Qed.


Ltac in_list := simpl; repeat (first [left; reflexivity | right]).

(** C10. The ranking keys are held in ascending order of article name, and
    between two articles with the same key the selection never takes the
    later name without the earlier one. *)
Theorem ties_prefer_earlier_article_name
    (df : frame) (a b : string) (k : option Z) :
  In (a, k) (last_values df) ->
  In (b, k) (last_values df) ->
  slt a b ->
  In b (top_articles_of df) ->
  In a (top_articles_of df)
  /\ StronglySorted slt (map fst (last_values df)).
Proof.
  intros Ha Hb Hab Hin. split.
  - destruct (in_dec string_dec a (top_articles_of df)) as [Hy|Hn];
      [exact Hy|].
    destruct (top_articles_rank df b a k k Hb Ha Hin Hn) as [_ Htie].
    simpl in Htie. specialize (Htie (key_ge_refl k)).
    exfalso. exact (slt_asym _ _ Hab Htie).
  - rewrite last_values_keys. apply group_keys_sorted.
Qed.

Lemma ties_prefer_earlier_article_name_witness :
  In "a"%string (top_articles_of df_tied)
  /\ StronglySorted slt (map fst (last_values df_tied)).
Proof.
  apply (ties_prefer_earlier_article_name df_tied "a" "t" (Some 5)).
  - vm_compute. in_list.
  - vm_compute. in_list.
  - reflexivity.
  - vm_compute. in_list.
Defined.

Example tied_articles_selected :
  top_articles_of df_tied
  = ["a"; "b"; "c"; "d"; "e"; "f"; "g"; "h"; "i"; "j"; "k"; "l"; "m"; "n";
     "o"; "p"; "q"; "r"; "s"; "t"]%string.
Proof. vm_compute. reflexivity. Qed.

(** ** Densification *)

Lemma date_range_cons s n :
  map (fun i => s + Z.of_nat i) (seq 0 (S n))
  = s :: map (fun i => (s + 1) + Z.of_nat i) (seq 0 n).
Proof.
  simpl. f_equal; [lia|].
  rewrite <- seq_shift, map_map. apply map_ext. intros i. lia.
Qed.

Lemma date_range_in s e d : In d (date_range s e) <-> s <= d <= e.
Proof.
  unfold date_range. rewrite in_map_iff. split.
  - intros (i & <- & Hi). apply in_seq in Hi. lia.
  - intros H. exists (Z.to_nat (d - s)). split; [lia|].
    apply in_seq. lia.
Qed.

Lemma date_range_NoDup s e : NoDup (date_range s e).
Proof.
  unfold date_range.
  apply Finite.Injective_map_NoDup; [|apply seq_NoDup].
  intros i j H. lia.
Qed.

Lemma filter_filter_absorb {A} (f g : A -> bool) l :
  (forall x, f x = true -> g x = true) ->
  filter f (filter g l) = filter f l.
Proof.
  intros H. induction l as [|x l IH]; simpl; [reflexivity|].
  destruct (g x) eqn:G; simpl.
  - now rewrite IH.
  - destruct (f x) eqn:F; [|exact IH].
    apply H in F. congruence.
Qed.

Lemma isin_In a l : isin a l = true <-> In a l.
Proof.
  unfold isin. rewrite existsb_exists. split.
  - intros (x & Hx & E). apply String.eqb_eq in E. now subst.
  - intros H. exists a. split; [exact H|apply String.eqb_refl].
Qed.

Lemma article_df_of_top top df a :
  In a top ->
  filter (fun r => String.eqb (article r) a) (restrict_to top df)
  = filter (fun r => String.eqb (article r) a) df.
Proof.
  intros H. apply filter_filter_absorb. intros r E.
  apply String.eqb_eq in E. subst a. now apply isin_In.
Qed.

Lemma ffill_from_length prev vs :
  List.length (ffill_from prev vs) = List.length vs.
Proof.
  revert prev. induction vs as [|[v|] vs IH]; intros prev; simpl;
    now rewrite ?IH.
Qed.

Lemma map_fst_combine {A B} (l : list A) (l' : list B) :
  List.length l = List.length l' -> map fst (combine l l') = l.
Proof.
  revert l'. induction l as [|x l IH]; intros [|y l'] H; simpl in *;
    try discriminate; [reflexivity|].
  f_equal. apply IH. now injection H.
Qed.

(** At most one row per key. *)
Lemma NoDup_key_filter {A K} (key : A -> K) (eqb : K -> K -> bool) l k :
  (forall x y, eqb x y = true <-> x = y) ->
  NoDup (map key l) ->
  (List.length (filter (fun x => eqb (key x) k) l) <= 1)%nat.
Proof.
  intros Heqb. induction l as [|x l IH]; simpl; intros Hnd; [lia|].
  inversion Hnd as [|? ? Hnotin Hnd']; subst.
  destruct (eqb (key x) k) eqn:E; [|now apply IH].
  apply Heqb in E. simpl.
  assert (Hnil : filter (fun y => eqb (key y) k) l = []).
  { destruct (filter (fun y => eqb (key y) k) l) as [|y t] eqn:F;
      [reflexivity|].
    assert (Hy : In y (filter (fun y => eqb (key y) k) l))
      by (rewrite F; now left).
    apply filter_In in Hy. destruct Hy as [Hy Ey]. apply Heqb in Ey.
    exfalso. apply Hnotin. rewrite E, <- Ey. now apply in_map. }
  rewrite Hnil. simpl. lia.
Qed.

Lemma key_eqb_eq x y : key_eqb x y = true <-> x = y.
Proof.
  destruct x as [d a], y as [d' a']. unfold key_eqb. simpl.
  rewrite andb_true_iff, Z.eqb_eq, String.eqb_eq.
  split; [intros [-> ->]; reflexivity|intros H; now injection H].
Qed.

Lemma rows_of_day_article df a d :
  filter (fun p => fst p =? d)
         (map (fun r => (date r, views r))
              (filter (fun r => String.eqb (article r) a) df))
  = map (fun r => (date r, views r))
        (filter (fun r => key_eqb (date r, article r) (d, a)) df).
Proof.
  induction df as [|r df IH]; simpl; [reflexivity|].
  unfold key_eqb at 1. simpl.
  destruct (String.eqb (article r) a); simpl.
  - destruct (date r =? d); simpl; now rewrite IH.
  - rewrite andb_false_r. exact IH.
Qed.

Lemma known_at_observed df a d v :
  unique_per_day df ->
  (known_at df a d = Some v <-> observed df a d v).
Proof.
  intros Hu. unfold known_at, observed. rewrite rows_of_day_article.
  pose proof (NoDup_key_filter (fun r => (date r, article r)) key_eqb df
                (d, a) key_eqb_eq Hu) as Hlen.
  set (rows := filter (fun r => key_eqb (date r, article r) (d, a)) df) in *.
  assert (Hrows : forall r, In r rows <->
                            In r df /\ date r = d /\ article r = a).
  { intros r. unfold rows. rewrite filter_In, key_eqb_eq. split.
    - intros [H E]. injection E as E1 E2. auto.
    - intros (H & E1 & E2). split; [exact H|congruence]. }
  split.
  - destruct rows as [|r t] eqn:F; simpl; [discriminate|].
    intros Hv.
    destruct (proj1 (Hrows r) (or_introl eq_refl)) as (Hin & Hd & Ha).
    destruct r as [d' a' v']. simpl in *. subst. exact Hin.
  - intros Hobs.
    assert (Hin : In (mkRow d a (Some v)) rows)
      by (apply Hrows; simpl; auto).
    destruct rows as [|r [|r' t]]; simpl in *; [destruct Hin| |lia].
    destruct Hin as [->|[]]. reflexivity.
Qed.

Lemma merge_left_cons d dates right :
  merge_left (d :: dates) right
  = match filter (fun p => fst p =? d) right with
    | [] => [(d, None)]
    | ms => map (fun p => (d, snd p)) ms
    end ++ merge_left dates right.
Proof. reflexivity. Qed.

Lemma merge_left_unique dates right :
  (forall d : Z,
     (List.length (filter (fun p => (fst p =? d)%Z) right) <= 1)%nat) ->
  merge_left dates right
  = map (fun d => (d, match filter (fun p => fst p =? d) right with
                      | [] => None
                      | p :: _ => snd p
                      end)) dates.
Proof.
  intros H.
  induction dates as [|d dates IH]; [reflexivity|].
  rewrite merge_left_cons, IH, map_cons. specialize (H d).
  destruct (filter (fun p => fst p =? d) right) as [|p [|q t]];
    simpl in *; [reflexivity|reflexivity|lia].
Qed.

Lemma article_full_exact_unique df top dates a :
  unique_per_day df -> In a top ->
  article_full_exact (restrict_to top df) dates a
  = map (fun p => mkRow (fst p) a (snd p))
        (combine dates (ffill (map (known_at df a) dates))).
Proof.
  intros Hu Ha. unfold article_full_exact, merged_rows.
  rewrite (article_df_of_top top df a Ha).
  rewrite merge_left_unique.
  - rewrite !map_map. simpl. rewrite map_id. reflexivity.
  - intros d. rewrite rows_of_day_article, List.length_map.
    apply (NoDup_key_filter (fun r => (date r, article r)) key_eqb df
             (d, a) key_eqb_eq Hu).
Qed.

(** The forward fill over consecutive days: what is shown on a day is the
    last known value up to that day, or what was carried in. *)
Lemma ffill_from_days (obs : Z -> option Z) n :
  forall s prev d x,
    In (d, x)
       (combine (map (fun i => s + Z.of_nat i) (seq 0 n))
                (ffill_from prev
                   (map obs (map (fun i => s + Z.of_nat i) (seq 0 n))))) ->
    match x with
    | Some v =>
        (exists d0, s <= d0 <= d /\ obs d0 = Some v
                    /\ forall d', d0 < d' <= d -> obs d' = None)
        \/ (prev = Some v /\ forall d', s <= d' <= d -> obs d' = None)
    | None => prev = None /\ forall d', s <= d' <= d -> obs d' = None
    end.
Proof.
  induction n as [|n IH]; intros s prev d x Hin; [destruct Hin|].
  rewrite date_range_cons in Hin. cbn [map ffill_from] in Hin.
  destruct (obs s) as [v0|] eqn:E; cbn [combine] in Hin;
    destruct Hin as [Heq|Hin].
  - injection Heq as <- <-. left. exists s.
    split; [lia|]. split; [exact E|]. intros d' Hd'. lia.
  - specialize (IH (s + 1) (Some v0) d x Hin).
    destruct x as [v|].
    + destruct IH as [(d0 & Hd0 & Ho & Hgap)|[Hprev Hgap]].
      * left. exists d0. split; [lia|]. split; [exact Ho|exact Hgap].
      * injection Hprev as <-. left. exists s.
        assert (s + 1 <= d \/ d < s + 1) as [Hle|Hlt] by lia.
        -- split; [lia|]. split; [exact E|].
           intros d' Hd'. apply Hgap. lia.
        -- split; [|split; [exact E|]].
           ++ enough (s + 1 <= d) by lia.
              clear - Hin. apply in_combine_l in Hin.
              apply in_map_iff in Hin. destruct Hin as (i & <- & _). lia.
           ++ intros d' Hd'. apply Hgap. lia.
    + destruct IH as [Hprev _]. discriminate.
  - injection Heq as <- <-. destruct prev as [v|].
    + right. split; [reflexivity|]. intros d' Hd'.
      replace d' with s by lia. exact E.
    + split; [reflexivity|]. intros d' Hd'.
      replace d' with s by lia. exact E.
  - specialize (IH (s + 1) prev d x Hin).
    assert (Hnone : forall d', s <= d' <= d ->
                      (forall d'', s + 1 <= d'' <= d -> obs d'' = None) ->
                      obs d' = None).
    { intros d' Hd' Hgap.
      assert (d' = s \/ s + 1 <= d' <= d) as [->|H'] by lia;
        [exact E|now apply Hgap]. }
    destruct x as [v|].
    + destruct IH as [(d0 & Hd0 & Ho & Hgap)|[Hprev Hgap]].
      * left. exists d0. split; [lia|]. split; [exact Ho|exact Hgap].
      * right. split; [exact Hprev|]. intros d' Hd'. now apply Hnone.
    + destruct IH as [Hprev Hgap]. split; [exact Hprev|].
      intros d' Hd'. now apply Hnone.
Qed.

Lemma article_full_exact_article df_top dates a r :
  In r (article_full_exact df_top dates a) -> article r = a.
Proof.
  unfold article_full_exact. intros H. apply in_map_iff in H.
  destruct H as (p & <- & _). reflexivity.
Qed.

Lemma filter_article_concat (f : string -> frame) top a :
  (forall b r, In r (f b) -> article r = b) ->
  NoDup top -> In a top ->
  filter (fun r => String.eqb (article r) a) (List.concat (map f top)) = f a.
Proof.
  intros Hf.
  assert (Hsame : filter (fun r => String.eqb (article r) a) (f a) = f a).
  { apply forallb_filter_id. apply forallb_forall. intros r Hr.
    apply String.eqb_eq. now apply Hf. }
  assert (Hother : forall b, b <> a ->
            filter (fun r => String.eqb (article r) a) (f b) = []).
  { intros b Hb.
    destruct (filter (fun r => String.eqb (article r) a) (f b))
      as [|r t] eqn:F; [reflexivity|].
    assert (Hr : In r (filter (fun r => String.eqb (article r) a) (f b)))
      by (rewrite F; now left).
    apply filter_In in Hr. destruct Hr as [Hr E].
    apply String.eqb_eq in E. apply Hf in Hr. congruence. }
  assert (Hnone : forall l, ~ In a l ->
            filter (fun r => String.eqb (article r) a)
                   (List.concat (map f l)) = []).
  { induction l as [|b l IH]; intros Hn; simpl; [reflexivity|].
    rewrite filter_app, Hother, IH; [reflexivity| |].
    - intros H. apply Hn. now right.
    - intros ->. apply Hn. now left. }
  induction top as [|b top IH]; intros Hnd Hin; [destruct Hin|].
  inversion Hnd as [|? ? Hnotin Hnd']; subst.
  simpl. rewrite filter_app. destruct Hin as [->|Hin].
  - rewrite Hsame, Hnone by exact Hnotin. apply app_nil_r.
  - rewrite Hother, IH by (try assumption; intros ->; contradiction).
    reflexivity.
Qed.

(** On exact integers: for an article of the selection, the densified
    frame holds the days of the range, each once and in order, with
    forward-filled views, provided the frame has at most one row per date
    and article. *)
Lemma df_plot_exact_dense_and_filled
    (df : frame) (start_date end_date : Z) (a : string) :
  unique_per_day df ->
  In a (top_articles_of df) ->
  map date (filter (fun r => String.eqb (article r) a)
                   (df_plot_exact df start_date end_date))
  = date_range start_date end_date
  /\ (forall r, In r (df_plot_exact df start_date end_date) ->
                article r = a ->
                forward_filled df a start_date (date r) (views r)).
Proof.
  intros Hu Ha.
  set (top := top_articles_of df).
  set (dates := date_range start_date end_date).
  assert (Hfull : article_full_exact (restrict_to top df) dates a
                  = map (fun p => mkRow (fst p) a (snd p))
                        (combine dates (ffill (map (known_at df a) dates))))
    by (apply article_full_exact_unique; assumption).
  assert (Hrows : filter (fun r => String.eqb (article r) a)
                         (df_plot_exact df start_date end_date)
                  = article_full_exact (restrict_to top df) dates a).
  { unfold df_plot_exact. fold top. fold dates.
    apply (filter_article_concat
             (article_full_exact (restrict_to top df) dates)).
    - intros b r. apply article_full_exact_article.
    - apply top_articles_NoDup.
    - exact Ha. }
  split.
  - rewrite Hrows, Hfull, map_map. simpl.
    apply map_fst_combine. unfold ffill.
    now rewrite ffill_from_length, List.length_map.
  - intros r Hr Har.
    assert (Hr' : In r (article_full_exact (restrict_to top df) dates a)).
    { rewrite <- Hrows. apply filter_In. split; [exact Hr|].
      now apply String.eqb_eq. }
    rewrite Hfull in Hr'. apply in_map_iff in Hr'.
    destruct Hr' as ([d x] & <- & Hdx). simpl.
    unfold dates, date_range, ffill in Hdx.
    apply (ffill_from_days (known_at df a)) in Hdx.
    unfold forward_filled. destruct x as [v|].
    + destruct Hdx as [(d0 & Hd0 & Ho & Hgap)|[Hprev _]]; [|discriminate].
      exists d0. split; [exact Hd0|].
      split; [now apply known_at_observed|].
      intros d' v' Hd' Hobs. apply (known_at_observed df a d' v' Hu) in Hobs.
      rewrite (Hgap d' Hd') in Hobs. discriminate.
    + destruct Hdx as [_ Hgap].
      intros d' v' Hd' Hobs. apply (known_at_observed df a d' v' Hu) in Hobs.
      rewrite (Hgap d' Hd') in Hobs. discriminate.
Qed.

(** ** What the forward fill can show *)

Lemma StronglySorted_app {A} (R : A -> A -> Prop) l1 l2 :
  StronglySorted R l1 -> StronglySorted R l2 ->
  (forall x y, In x l1 -> In y l2 -> R x y) ->
  StronglySorted R (l1 ++ l2).
Proof.
  induction 1 as [|x l1 Hs IH Hall]; intros H2 Hcross; simpl;
    [exact H2|].
  constructor.
  - apply IH; [exact H2|]. intros a b Ha Hb. apply Hcross; [now right|exact Hb].
  - apply Forall_app. split; [exact Hall|].
    apply Forall_forall. intros y Hy. apply Hcross; [now left|exact Hy].
Qed.

Lemma days_sorted n :
  forall s, StronglySorted Z.lt (map (fun i => s + Z.of_nat i) (seq 0 n)).
Proof.
  induction n as [|n IH]; intros s; [constructor|].
  rewrite date_range_cons. constructor; [apply IH|].
  apply Forall_forall. intros x Hx. apply in_map_iff in Hx.
  destruct Hx as (i & <- & _). lia.
Qed.

Lemma date_range_sorted s e : StronglySorted Z.lt (date_range s e).
Proof. apply days_sorted. Qed.

Lemma merge_left_in dates right d x :
  In (d, x) (merge_left dates right) ->
  In d dates /\ (x = None \/ In (d, x) right).
Proof.
  unfold merge_left. rewrite in_flat_map. intros (d0 & Hd0 & Hin).
  destruct (filter (fun p => fst p =? d0) right) as [|p ms] eqn:F.
  - destruct Hin as [Heq|[]]. injection Heq as <- <-. auto.
  - apply in_map_iff in Hin. destruct Hin as (q & Heq & Hq).
    injection Heq as <- <-. rewrite <- F in Hq.
    apply filter_In in Hq. destruct Hq as [Hq Hfst].
    apply Z.eqb_eq in Hfst. split; [exact Hd0|]. right.
    destruct q as [dq xq]. simpl in *. now subst.
Qed.

Lemma same_fst_sorted d (l : list (Z * option Z)) :
  (forall p, In p l -> fst p = d) -> StronglySorted fst_le l.
Proof.
  induction l as [|p l IH]; intros H; constructor.
  - apply IH. intros q Hq. apply H. now right.
  - apply Forall_forall. intros q Hq. unfold fst_le.
    rewrite (H p (or_introl eq_refl)), (H q (or_intror Hq)). lia.
Qed.

Lemma merge_left_sorted dates right :
  StronglySorted Z.lt dates -> StronglySorted fst_le (merge_left dates right).
Proof.
  induction 1 as [|d dates Hs IH Hall]; [constructor|].
  rewrite merge_left_cons.
  assert (Hblock : forall p,
            In p (match filter (fun p => fst p =? d) right with
                  | [] => [(d, None)]
                  | ms => map (fun p => (d, snd p)) ms
                  end) -> fst p = d).
  { intros p Hp.
    destruct (filter (fun p => fst p =? d) right) as [|q ms].
    - destruct Hp as [<-|[]]. reflexivity.
    - apply in_map_iff in Hp. destruct Hp as (q' & <- & _). reflexivity. }
  apply StronglySorted_app; [now apply (same_fst_sorted d)|exact IH|].
  intros [d1 x1] [d2 x2] H1 H2. apply Hblock in H1.
  apply merge_left_in in H2. destruct H2 as [H2 _].
  rewrite Forall_forall in Hall. specialize (Hall d2 H2).
  unfold fst_le. simpl in *. lia.
Qed.

(** What a forward fill shows in a row is what was carried in or a value of
    an earlier or the same row. *)
Lemma ffill_from_known (m : list (Z * option Z)) :
  StronglySorted fst_le m ->
  forall prev d x,
    In (d, x) (combine (map fst m) (ffill_from prev (map snd m))) ->
    In d (map fst m)
    /\ forall v, x = Some v ->
                 prev = Some v
                 \/ exists d', In (d', Some v) m /\ d' <= d.
Proof.
  induction 1 as [|[d0 x0] m Hs IH Hall]; intros prev d x Hin;
    [destruct Hin|].
  rewrite Forall_forall in Hall.
  assert (Hlater : forall d1, In d1 (map fst m) -> d0 <= d1).
  { intros d1 H1. apply in_map_iff in H1. destruct H1 as (q & <- & Hq).
    apply (Hall q Hq). }
  cbn [map fst snd ffill_from] in Hin.
  destruct x0 as [v0|]; cbn [combine] in Hin; destruct Hin as [Heq|Hin].
  - injection Heq as <- <-. split; [now left|].
    intros v Hv. right. exists d0. rewrite <- Hv.
    split; [now left|lia].
  - destruct (IH (Some v0) d x Hin) as [Hd Hval].
    split; [now right|]. intros v Hv.
    destruct (Hval v Hv) as [Hprev|(d' & Hd' & Hle)].
    + injection Hprev as <-. right. exists d0.
      split; [now left|now apply Hlater].
    + right. exists d'. split; [now right|exact Hle].
  - injection Heq as <- <-. split; [now left|].
    intros v Hv. now left.
  - destruct (IH prev d x Hin) as [Hd Hval].
    split; [now right|]. intros v Hv.
    destruct (Hval v Hv) as [Hprev|(d' & Hd' & Hle)]; [now left|].
    right. exists d'. split; [now right|exact Hle].
Qed.

(** A row of the densified frame of one article, on exact integers: its
    day is a day of the scaffold, and a value it shows is the value of a
    row of the article on a day of the scaffold that is not later. *)
Lemma article_full_exact_known df_top dates a r :
  StronglySorted Z.lt dates ->
  In r (article_full_exact df_top dates a) ->
  article r = a
  /\ In (date r) dates
  /\ (forall v, views r = Some v ->
                exists r0, In r0 df_top /\ article r0 = a
                           /\ views r0 = Some v
                           /\ In (date r0) dates /\ date r0 <= date r).
Proof.
  intros Hdates Hr. unfold article_full_exact in Hr.
  apply in_map_iff in Hr.
  destruct Hr as ([d x] & <- & Hdx). cbn [article date views fst snd].
  unfold merged_rows in Hdx.
  set (right := map (fun r => (date r, views r))
                    (filter (fun r => String.eqb (article r) a) df_top))
    in *.
  set (m := merge_left dates right) in *.
  pose proof (merge_left_sorted dates right Hdates) as Hsorted.
  fold m in Hsorted. unfold ffill in Hdx.
  destruct (ffill_from_known m Hsorted None d x Hdx) as [Hd Hval].
  split; [reflexivity|]. split.
  - apply in_map_iff in Hd. destruct Hd as ([d1 x1] & <- & H1).
    now apply merge_left_in in H1.
  - intros v ->. destruct (Hval v eq_refl) as [Hprev|(d' & Hd' & Hle)];
      [discriminate|].
    apply merge_left_in in Hd'. destruct Hd' as [Hin [Hnone|Hright]];
      [discriminate|].
    unfold right in Hright. apply in_map_iff in Hright.
    destruct Hright as (r0 & Heq & Hr0). injection Heq as Hdate Hviews.
    apply filter_In in Hr0. destruct Hr0 as [Hr0 Hart].
    apply String.eqb_eq in Hart.
    exists r0. split; [exact Hr0|]. split; [exact Hart|].
    split; [exact Hviews|]. rewrite Hdate. split; [exact Hin|exact Hle].
Qed.

Lemma df_plot_exact_known (df : frame) (start_date end_date : Z) (r : row) :
  In r (df_plot_exact df start_date end_date) ->
  In (article r) (top_articles_of df)
  /\ start_date <= date r <= end_date
  /\ (forall v, views r = Some v ->
                exists r0, In r0 df /\ article r0 = article r
                           /\ views r0 = Some v
                           /\ start_date <= date r0 <= date r).
Proof.
  unfold df_plot_exact. intros Hr.
  apply in_concat in Hr. destruct Hr as (fr & Hfr & Hr).
  apply in_map_iff in Hfr. destruct Hfr as (a & <- & Ha).
  apply article_full_exact_known in Hr; [|apply date_range_sorted].
  destruct Hr as (Hart & Hd & Hval). rewrite Hart.
  split; [exact Ha|]. split; [now apply date_range_in|].
  intros v Hv. destruct (Hval v Hv) as (r0 & Hr0 & Ha0 & Hv0 & Hd0 & Hle).
  exists r0. unfold restrict_to in Hr0. apply filter_In in Hr0.
  split; [apply Hr0|]. split; [exact Ha0|]. split; [exact Hv0|].
  apply date_range_in in Hd0. lia.
Qed.

(** ** Rounding to float64 *)

Lemma float64_of_Z_exact z : Z.abs z <= 2 ^ 53 -> float64_of_Z z = z.
Proof.
  intros H. unfold float64_of_Z. apply Z.leb_le in H. now rewrite H.
Qed.

(** The float64 nearest to a multiple of the spacing, with a significand
    of at most 53 bits, is that multiple. *)
Lemma float64_of_Z_multiple s q e :
  (s = 1 \/ s = -1) -> 0 <= e -> 2 ^ 52 <= q <= 2 ^ 53 ->
  float64_of_Z (s * (q * 2 ^ e)) = s * (q * 2 ^ e).
Proof.
  intros Hs He Hq. unfold float64_of_Z. cbv zeta.
  assert (Hpow : 0 < 2 ^ e) by (apply Z.pow_pos_nonneg; lia).
  assert (H52 : 0 < 2 ^ 52) by (apply Z.pow_pos_nonneg; lia).
  assert (Hpos : 0 < q * 2 ^ e) by nia.
  assert (Habs : Z.abs (s * (q * 2 ^ e)) = q * 2 ^ e)
    by (destruct Hs as [-> | ->]; lia).
  assert (Hsgn : Z.sgn (s * (q * 2 ^ e)) = s)
    by (destruct Hs as [-> | ->]; lia).
  rewrite Habs, Hsgn.
  destruct (q * 2 ^ e <=? 2 ^ 53) eqn:E; [reflexivity|].
  apply Z.leb_gt in E. f_equal.
  assert (Hcase : q < 2 ^ 53 \/ q = 2 ^ 53) by lia.
  destruct Hcase as [Hlt | ->].
  - assert (He1 : 1 <= e).
    { destruct (Z.eq_dec e 0) as [-> | Hne]; [|lia].
      rewrite Z.pow_0_r in E. lia. }
    assert (Hlog : Z.log2 (q * 2 ^ e) = 52 + e).
    { apply Z.log2_unique; [lia|].
      rewrite Z.pow_succ_r, Z.pow_add_r by lia.
      change (2 ^ 53) with (2 * 2 ^ 52) in Hlt.
      nia. }
    rewrite Hlog. replace (52 + e - 52) with e by lia.
    rewrite Z.shiftr_div_pow2, Z.div_mul by lia.
    rewrite Z.land_ones, Z.mod_mul by lia.
    rewrite !Z.shiftl_mul_pow2, Z.mul_1_l by lia.
    assert (Hhalf : 0 < 2 ^ (e - 1)) by (apply Z.pow_pos_nonneg; lia).
    replace (2 ^ (e - 1) <? 0) with false by (symmetry; apply Z.ltb_ge; lia).
    replace (0 =? 2 ^ (e - 1)) with false by (symmetry; apply Z.eqb_neq; lia).
    reflexivity.
  - assert (Hlog : Z.log2 (2 ^ 53 * 2 ^ e) = 53 + e).
    { rewrite <- Z.pow_add_r by lia. apply Z.log2_pow2. lia. }
    rewrite Hlog. replace (53 + e - 52) with (e + 1) by lia.
    assert (Hsplit : 2 ^ 53 * 2 ^ e = 2 ^ 52 * 2 ^ (e + 1)).
    { rewrite <- !Z.pow_add_r by lia. f_equal. lia. }
    rewrite Hsplit.
    rewrite Z.shiftr_div_pow2, Z.div_mul by lia.
    rewrite Z.land_ones, Z.mod_mul by lia.
    rewrite !Z.shiftl_mul_pow2, Z.mul_1_l by lia.
    replace (e + 1 - 1) with e by lia.
    replace (2 ^ e <? 0) with false by (symmetry; apply Z.ltb_ge; lia).
    replace (0 =? 2 ^ e) with false by (symmetry; apply Z.eqb_neq; lia).
    reflexivity.
Qed.

(** What [float64_of_Z] returns beyond 2^53: a multiple of the spacing
    that differs from the argument by at most half the spacing. *)
Lemma float64_of_Z_large z :
  2 ^ 53 < Z.abs z ->
  exists q e,
    1 <= e /\ 2 ^ 52 <= q <= 2 ^ 53
    /\ float64_of_Z z = Z.sgn z * (q * 2 ^ e)
    /\ 2 * Z.abs (float64_of_Z z - z) <= 2 ^ e.
Proof.
  intros Hbig. unfold float64_of_Z. cbv zeta.
  replace (Z.abs z <=? 2 ^ 53) with false by (symmetry; apply Z.leb_gt; lia).
  set (a := Z.abs z) in *.
  assert (Ha : 0 < a).
  { assert (0 < 2 ^ 53) by (apply Z.pow_pos_nonneg; lia). lia. }
  assert (Hlog : 53 <= Z.log2 a).
  { destruct (Z.lt_ge_cases (Z.log2 a) 53) as [H|H]; [|exact H].
    apply Z.log2_lt_pow2 in H; lia. }
  set (e := Z.log2 a - 52).
  assert (He : 1 <= e) by (unfold e; lia).
  assert (Hpow : 0 < 2 ^ e) by (apply Z.pow_pos_nonneg; lia).
  pose proof (Z.log2_spec a Ha) as [Hlo Hhi].
  replace (Z.log2 a) with (52 + e) in Hlo by (unfold e; lia).
  replace (Z.succ (Z.log2 a)) with (53 + e) in Hhi by (unfold e; lia).
  rewrite Z.pow_add_r in Hlo, Hhi by lia.
  rewrite Z.shiftr_div_pow2, Z.land_ones by lia.
  rewrite (Z.shiftl_mul_pow2 1), Z.mul_1_l by lia.
  set (q := a / 2 ^ e). set (r := a mod 2 ^ e).
  assert (Hdiv : a = 2 ^ e * q + r) by (apply Z.div_mod; lia).
  assert (Hr : 0 <= r < 2 ^ e) by (apply Z.mod_pos_bound; lia).
  assert (Hq : 2 ^ 52 <= q < 2 ^ 53).
  { split.
    - apply Z.div_le_lower_bound; lia.
    - apply Z.div_lt_upper_bound; lia. }
  assert (Hhalf : 2 * 2 ^ (e - 1) = 2 ^ e).
  { replace e with (1 + (e - 1)) at 2 by lia.
    rewrite Z.pow_add_r by lia. reflexivity. }
  set (half := 2 ^ (e - 1)) in *.
  set (q' := if (half <? r) || ((r =? half) && Z.odd q) then q + 1 else q).
  exists q', e. rewrite Z.shiftl_mul_pow2 by lia.
  assert (Hq' : (q' = q /\ 2 * r <= 2 ^ e) \/ (q' = q + 1 /\ 2 ^ e <= 2 * r)).
  { unfold q'. destruct (half <? r) eqn:E1; cbn [orb].
    - apply Z.ltb_lt in E1. right. split; [reflexivity|lia].
    - apply Z.ltb_ge in E1. destruct (r =? half) eqn:E2; cbn [andb].
      + apply Z.eqb_eq in E2. destruct (Z.odd q); [right|left];
          (split; [reflexivity|lia]).
      + left. split; [reflexivity|lia]. }
  split; [exact He|]. split; [destruct Hq' as [[-> _]|[-> _]]; lia|].
  split; [reflexivity|].
  assert (Hz : z = Z.sgn z * a) by (unfold a; lia).
  assert (Hs : Z.sgn z = 1 \/ Z.sgn z = -1) by lia.
  rewrite Hz at 2.
  replace (Z.sgn z * (q' * 2 ^ e) - Z.sgn z * a)
    with (Z.sgn z * (q' * 2 ^ e - a)) by ring.
  destruct Hs as [-> | ->]; destruct Hq' as [[-> Hle]|[-> Hle]]; nia.
Qed.

Lemma float64_of_Z_idempotent z :
  float64_of_Z (float64_of_Z z) = float64_of_Z z.
Proof.
  destruct (Z.le_gt_cases (Z.abs z) (2 ^ 53)) as [H|H].
  - rewrite (float64_of_Z_exact z H). exact (float64_of_Z_exact z H).
  - destruct (float64_of_Z_large z H) as (q & e & He & Hq & -> & _).
    apply float64_of_Z_multiple; lia.
Qed.

(** Converting a float64 column to float64 changes nothing. *)
Lemma astype_float64_idempotent l :
  astype_float64 (astype_float64 l) = astype_float64 l.
Proof.
  unfold astype_float64. rewrite map_map. apply map_ext.
  intros [d a [v|]]; [|reflexivity].
  unfold round_row. cbn [date article views option_map].
  now rewrite float64_of_Z_idempotent.
Qed.

Lemma astype_float64_exact l : exact_in_float64 l -> astype_float64 l = l.
Proof.
  unfold astype_float64. induction l as [|r l IH]; intros H;
    [reflexivity|].
  cbn [map]. rewrite IH by (intros r' v Hr'; apply H; now right).
  f_equal. destruct r as [d a [v|]]; [|reflexivity].
  unfold round_row. cbn [date article views option_map].
  rewrite float64_of_Z_exact; [reflexivity|].
  apply (H (mkRow d a (Some v))); [now left|reflexivity].
Qed.

Lemma astype_float64_keys l : map row_key (astype_float64 l) = map row_key l.
Proof. unfold astype_float64. rewrite map_map. reflexivity. Qed.

Lemma ffill_from_rounded prev vs :
  ffill_from (option_map float64_of_Z prev)
             (map (option_map float64_of_Z) vs)
  = map (option_map float64_of_Z) (ffill_from prev vs).
Proof.
  revert prev. induction vs as [|[v|] vs IH]; intros prev;
    [reflexivity| |]; cbn [map option_map ffill_from]; f_equal.
  - apply (IH (Some v)).
  - apply IH.
Qed.

Lemma rows_rounded a (l : list Z) vs :
  map (fun p => mkRow (fst p) a (snd p))
      (combine l (map (option_map float64_of_Z) vs))
  = astype_float64 (map (fun p => mkRow (fst p) a (snd p)) (combine l vs)).
Proof.
  revert vs. induction l as [|d l IH]; intros [|v vs]; try reflexivity.
  cbn [map combine astype_float64]. f_equal. apply IH.
Qed.

(** The body of the loop differs from the exact one by the rounding of an
    upcast alone. *)
Lemma article_full_round df_top dates a :
  article_full df_top dates a
  = if merge_has_nan df_top dates a
    then astype_float64 (article_full_exact df_top dates a)
    else article_full_exact df_top dates a.
Proof.
  unfold article_full, article_full_exact.
  destruct (merge_has_nan df_top dates a); [|reflexivity].
  unfold ffill.
  rewrite (ffill_from_rounded None), rows_rounded. reflexivity.
Qed.

Lemma article_full_keys df_top dates a :
  map row_key (article_full df_top dates a)
  = map row_key (article_full_exact df_top dates a).
Proof.
  rewrite article_full_round.
  destruct (merge_has_nan df_top dates a); [|reflexivity].
  apply astype_float64_keys.
Qed.

Lemma df_plot_keys df start_date end_date :
  map row_key (df_plot_of df start_date end_date)
  = map row_key (df_plot_exact df start_date end_date).
Proof.
  unfold df_plot_of, df_plot_exact, article_dfs_of.
  assert (H : map row_key
                (List.concat
                   (map (article_full
                           (restrict_to (top_articles_of df) df)
                           (date_range start_date end_date))
                        (top_articles_of df)))
              = map row_key
                  (List.concat
                     (map (article_full_exact
                             (restrict_to (top_articles_of df) df)
                             (date_range start_date end_date))
                          (top_articles_of df)))).
  { rewrite !concat_map, !map_map. f_equal. apply map_ext.
    intros a. apply article_full_keys. }
  destruct (existsb _ _); [rewrite astype_float64_keys|]; exact H.
Qed.

Lemma dates_of_article a l :
  map date (filter (fun r => String.eqb (article r) a) l)
  = map fst (filter (fun k => String.eqb (snd k) a) (map row_key l)).
Proof.
  induction l as [|r l IH]; [reflexivity|]. cbn [map filter row_key snd].
  destruct (String.eqb (article r) a); cbn [map fst]; now rewrite IH.
Qed.

(** When every number of the frame is exact in float64, no upcast changes
    a value. *)
Lemma article_full_of_exact df_top dates a :
  StronglySorted Z.lt dates ->
  exact_in_float64 df_top ->
  article_full df_top dates a = article_full_exact df_top dates a.
Proof.
  intros Hdates Hex. rewrite article_full_round.
  destruct (merge_has_nan df_top dates a); [|reflexivity].
  apply astype_float64_exact. intros r v Hr Hv.
  destruct (article_full_exact_known df_top dates a r Hdates Hr)
    as (_ & _ & Hval).
  destruct (Hval v Hv) as (r0 & Hr0 & _ & Hv0 & _).
  exact (Hex r0 v Hr0 Hv0).
Qed.

Lemma df_plot_of_exact df start_date end_date :
  exact_in_float64 df ->
  df_plot_of df start_date end_date = df_plot_exact df start_date end_date.
Proof.
  intros Hex.
  assert (Htop : exact_in_float64 (restrict_to (top_articles_of df) df)).
  { intros r v Hr. unfold restrict_to in Hr. apply filter_In in Hr.
    apply Hex. apply Hr. }
  assert (H : List.concat (article_dfs_of df start_date end_date)
              = df_plot_exact df start_date end_date).
  { unfold article_dfs_of, df_plot_exact. f_equal. apply map_ext.
    intros a. apply article_full_of_exact;
      [apply date_range_sorted|exact Htop]. }
  unfold df_plot_of. rewrite H.
  destruct (existsb _ _); [|reflexivity].
  apply astype_float64_exact. intros r v Hr Hv.
  destruct (df_plot_exact_known df start_date end_date r Hr)
    as (_ & _ & Hval).
  destruct (Hval v Hv) as (r0 & Hr0 & _ & Hv0 & _).
  exact (Hex r0 v Hr0 Hv0).
Qed.

(** For an article of the selection, the densified frame holds the days of
    the range, each once and in order, provided the frame has at most one
    row per date and article; when every number of the frame is exact in
    float64, the views shown are the forward-filled ones. *)
Lemma df_plot_dense_and_filled
    (df : frame) (start_date end_date : Z) (a : string) :
  unique_per_day df ->
  In a (top_articles_of df) ->
  map date (filter (fun r => String.eqb (article r) a)
                   (df_plot_of df start_date end_date))
  = date_range start_date end_date
  /\ NoDup (date_range start_date end_date)
  /\ (forall d, In d (date_range start_date end_date)
                <-> start_date <= d <= end_date)
  /\ (exact_in_float64 df ->
      forall r, In r (df_plot_of df start_date end_date) ->
                article r = a ->
                forward_filled df a start_date (date r) (views r)).
Proof.
  intros Hu Ha.
  destruct (df_plot_exact_dense_and_filled df start_date end_date a Hu Ha)
    as [Hdates Hfill].
  split; [|split; [apply date_range_NoDup|split; [apply date_range_in|]]].
  - rewrite dates_of_article, df_plot_keys, <- dates_of_article.
    exact Hdates.
  - intros Hex. rewrite (df_plot_of_exact df start_date end_date Hex).
    exact Hfill.
Qed.

Example scenario_forward_fill :
  map views (filter (fun r => String.eqb (article r) "A")
                    (df_plot_of df_scenario 1 3))
  = [Some 10; Some 10; Some 30]
  /\ map views (filter (fun r => String.eqb (article r) "C")
                       (df_plot_of df_scenario 1 3))
     = [None; None; Some 7].
Proof. split; vm_compute; reflexivity. Qed.

(** A frame whose numbers are not all exact in float64: the upcast of the
    merge rounds 2^53 + 1 to 2^53 and 2^53 + 3 to 2^53 + 4. *)
Example float64_rounds_to_even :
  float64_of_Z (2 ^ 53 + 1) = 2 ^ 53
  /\ float64_of_Z (2 ^ 53 + 3) = 2 ^ 53 + 4
  /\ float64_of_Z (- (2 ^ 53 + 1)) = - 2 ^ 53
  /\ float64_of_Z (2 ^ 60 + 129) = 2 ^ 60 + 256.
Proof. repeat split; vm_compute; reflexivity. Qed.

(** ** The statistics step *)

Lemma top_articles_nonempty df : df <> [] -> top_articles_of df <> [].
Proof.
  intros Hdf Htop. destruct df as [|r df]; [congruence|].
  destruct (last_values_complete (article r) (r :: df)) as (k & Hk);
    [now left|].
  pose proof (top_articles_length (r :: df)) as Hlen.
  rewrite Htop, <- distinct_articles_length in Hlen. simpl in Hlen.
  destruct (last_values (r :: df)); [destruct Hk|simpl in Hlen; lia].
Qed.

Section StatisticsFacts.

Variable lib : pandas.

Lemma analyse_no_views df start_date end_date :
  df <> [] -> valid_views_of df = [] ->
  analyse lib df start_date end_date
  = Raise (ValueError MSG_NO_VIEWS).
Proof.
  intros Hdf Hvalid. unfold analyse.
  destruct df as [|r df]; [congruence|].
  pose proof (top_articles_nonempty (r :: df) Hdf) as Htop.
  unfold article_dfs_of.
  destruct (top_articles_of (r :: df)) as [|a top] eqn:E; [congruence|].
  cbn [map]. unfold valid_views_of in Hvalid. rewrite E in Hvalid.
  now rewrite Hvalid.
Qed.

Lemma analyse_ok df start_date end_date out :
  analyse lib df start_date end_date = Ok out ->
  valid_views_of df <> []
  /\ top_articles out = top_articles_of df
  /\ df_plot out = df_plot_of df start_date end_date
  /\ mean_views out
     = series_mean lib
         (map snd (mean_views_by_article lib (valid_views_of df)))
  /\ max_views out = max_of (views_of (valid_views_of df))
  /\ unique_articles out = nunique (map article df).
Proof.
  unfold analyse, valid_views_of.
  destruct df as [|r df]; [discriminate|].
  destruct (article_dfs_of (r :: df) start_date end_date) as [|f fs];
    [discriminate|].
  destruct (dropna_views (restrict_to (top_articles_of (r :: df)) (r :: df)))
    as [|v vs]; [discriminate|].
  intros H. injection H as <-. cbn.
  repeat split; congruence.
Qed.

(** What [analyse_collected] does with the collected frames, by the dtype
    of the concatenated [views] column. *)
Lemma analyse_collected_numeric frames start_date end_date :
  concat_dtype lib frames = Int64 \/ concat_dtype lib frames = Float64 ->
  analyse_collected lib frames start_date end_date
  = analyse lib (pd_concat lib frames) start_date end_date.
Proof.
  unfold analyse_collected.
  destruct (pd_concat lib frames) as [|r df]; [reflexivity|].
  intros [-> | ->]; reflexivity.
Qed.

Lemma analyse_collected_ok frames start_date end_date out :
  analyse_collected lib frames start_date end_date = Ok out ->
  (concat_dtype lib frames = Int64 \/ concat_dtype lib frames = Float64)
  /\ analyse lib (pd_concat lib frames) start_date end_date = Ok out.
Proof.
  unfold analyse_collected.
  destruct (pd_concat lib frames) as [|r df]; [discriminate|].
  destruct (concat_dtype lib frames); try discriminate; auto.
Qed.

End StatisticsFacts.

Section MainFacts.

Variable net : string -> nat -> attempt_result.
Variable strftime : Z -> string -> string.
Variable lib : pandas.
Variables (start_date end_date : Z) (w : world).

Lemma main_unfold frames :
  fst (collect net strftime (date_range start_date end_date) [] w)
  = Ok frames ->
  frames <> [] ->
  fst (main net strftime lib start_date end_date w)
  = analyse_collected lib frames start_date end_date.
Proof.
  intros Hc Hne. unfold main, bind.
  destruct (collect net strftime (date_range start_date end_date) [] w)
    as [res w1].
  simpl in Hc. subst res.
  destruct frames as [|f fs]; [congruence|].
  unfold lift.
  destruct (analyse_collected lib (f :: fs) start_date end_date);
    reflexivity.
Qed.

Lemma main_no_figure_on_raise e :
  fst (main net strftime lib start_date end_date w) = Raise e ->
  made_figure (snd (main net strftime lib start_date end_date w))
  = made_figure w.
Proof.
  pose proof (collect_no_figure net strftime
                (date_range start_date end_date) [] w) as Hf.
  unfold main, bind.
  destruct (collect net strftime (date_range start_date end_date) [] w)
    as [[frames|e'] w1]; simpl in Hf; [|intros _; exact Hf].
  destruct frames as [|f fs]; [intros _; exact Hf|].
  unfold lift.
  destruct (analyse_collected lib (f :: fs) start_date end_date);
    [discriminate|intros _; exact Hf].
Qed.

Lemma main_ok out :
  fst (main net strftime lib start_date end_date w) = Ok out ->
  exists frames,
    fst (collect net strftime (date_range start_date end_date) [] w)
    = Ok frames
    /\ analyse lib (pd_concat lib frames) start_date end_date = Ok out.
Proof.
  unfold main, bind.
  destruct (collect net strftime (date_range start_date end_date) [] w)
    as [[frames|e'] w1]; [|discriminate].
  destruct frames as [|f fs]; [discriminate|].
  unfold lift. intros H. exists (f :: fs). split; [reflexivity|].
  apply analyse_collected_ok.
  destruct (analyse_collected lib (f :: fs) start_date end_date);
    [|discriminate].
  simpl in H. exact H.
Qed.

End MainFacts.

(** C7. The check of lines 105 to 107 is not reached by every input that
    leaves no row after [dropna].  When every entry has ["views": null] the
    column holds objects and [nlargest] on line 88 raises [TypeError]; when
    no entry has the key there is no column and line 87 raises [KeyError].
    In both cases every collected row lacks a views value, and [main] ends
    with an exception that is not the "no views" [ValueError].  With NaN in
    place of the numbers the column is float64 and the check is reached. *)
Theorem null_views_fail_before_no_views_check
    (lib : pandas) :
  (fst (collect net_null_views strftime_id (date_range 1 2) [] world0)
   = Ok [mkTable [mkRow 1 "A" None] ObjectDtype;
         mkTable [mkRow 2 "A" None] ObjectDtype]
   /\ fst (main net_null_views strftime_id lib 1 2 world0)
      = Raise (TypeError MSG_NLARGEST_OBJECT))
  /\ (fst (collect net_missing_views strftime_id (date_range 1 2) [] world0)
      = Ok [mkTable [mkRow 1 "A" None] NoColumn;
            mkTable [mkRow 2 "A" None] NoColumn]
      /\ fst (main net_missing_views strftime_id lib 1 2 world0)
         = Raise (KeyError MSG_NO_COLUMN))
  /\ (fst (collect net_no_views strftime_id (date_range 1 2) [] world0)
      = Ok [mkTable [mkRow 1 "A" None] Float64;
            mkTable [mkRow 2 "A" None] Float64]
      /\ fst (main net_no_views strftime_id lib 1 2 world0)
         = Raise (ValueError MSG_NO_VIEWS))
  /\ ValueError MSG_NO_VIEWS <> ValueError MSG_NOT_COLLECTED.
Proof.
  repeat split; try (vm_compute; reflexivity).
  unfold MSG_NO_VIEWS, MSG_NOT_COLLECTED. discriminate.
Qed.

(** ** Counting the articles *)

Lemma unique_in x l : In x (unique l) <-> In x l.
Proof.
  induction l as [|y l IH]; simpl; [reflexivity|].
  rewrite filter_In, IH, negb_true_iff, String.eqb_neq.
  destruct (string_dec x y) as [->|Hne]; intuition.
Qed.

Lemma unique_NoDup l : NoDup (unique l).
Proof.
  induction l as [|y l IH]; simpl; constructor.
  - rewrite filter_In, negb_true_iff, String.eqb_neq. intuition.
  - now apply NoDup_filter.
Qed.

Lemma nunique_distinct l :
  nunique l = List.length (nodup string_dec l).
Proof.
  unfold nunique. apply Permutation_length. apply NoDup_Permutation.
  - apply unique_NoDup.
  - apply NoDup_nodup.
  - intros x. now rewrite unique_in, nodup_In.
Qed.

(** C8. When [main] succeeds, the article count it reports is the number
    of distinct article names among all collected rows, whatever the
    selection kept. *)
Theorem unique_articles_counts_all_collected
    (net : string -> nat -> attempt_result)
    (strftime : Z -> string -> string)
    (lib : pandas) (start_date end_date : Z)
    (w : world) (out : analysis) :
  fst (main net strftime lib start_date end_date w) = Ok out ->
  exists frames,
    fst (collect net strftime (date_range start_date end_date) [] w)
    = Ok frames
    /\ unique_articles out
       = List.length (nodup string_dec (map article (pd_concat lib frames)))
    /\ (List.length (top_articles out) <= unique_articles out)%nat.
Proof.
  intros Hmain.
  destruct (main_ok net strftime lib start_date end_date w out
              Hmain)
    as (frames & Hc & Ha).
  exists frames. split; [exact Hc|].
  apply analyse_ok in Ha.
  destruct Ha as (_ & Htop & _ & _ & _ & Hu).
  rewrite Hu, Htop, nunique_distinct. split; [reflexivity|].
  rewrite top_articles_length. apply Nat.le_min_r.
Qed.

Example unique_articles_exceeds_top_set :
  exists out,
    fst (main net_tied strftime_id exact_lib 1 1 world0) = Ok out
    /\ unique_articles out = 21%nat
    /\ List.length (top_articles out) = 20%nat.
Proof. eexists. vm_compute. repeat split. Qed.

(** ** The mean statistic *)






Lemma valid_views_in df r :
  In r (valid_views_of df)
  <-> In r df /\ In (article r) (top_articles_of df) /\ views r <> None.
Proof.
  unfold valid_views_of, dropna_views, restrict_to, has_views.
  rewrite !filter_In, isin_In.
  destruct (views r); intuition congruence.
Qed.



(** With the exact means: article A seen three days with 10 views and
    article B one day with 40 give 25, where the flat mean is 17.5.  All
    the values of this computation are exact in binary64. *)
Example two_articles_means_differ :
  (mean_views (value_of (analyse exact_lib df_two_articles 1 3))
   == 25 # 1)%Q
  /\ (flat_mean (valid_views_of df_two_articles) == 35 # 2)%Q.
Proof. split; vm_compute; reflexivity. Qed.


Lemma unique_articles_counts_all_collected_witness :
  exists frames,
    fst (collect net_middle_day_missing strftime_id (date_range 1 3) []
           world0) = Ok frames
    /\ unique_articles out_scenario
       = List.length
           (nodup string_dec (map article (pd_concat exact_lib frames)))
    /\ (List.length (top_articles out_scenario)
        <= unique_articles out_scenario)%nat.
Proof.
  apply (unique_articles_counts_all_collected net_middle_day_missing
           strftime_id exact_lib 1 3 world0 out_scenario).
  vm_compute. reflexivity.
Defined.

(** ** The collected frame meets the data model's key *)

Lemma api_loop_returned net url retries delay attempts :
  forall w p w',
    api_loop net url retries delay attempts w = (Ok (Some p), w') ->
    exists n, net url n = Returned p.
Proof.
  induction attempts as [|a rest IH]; intros w p w'.
  - simpl. unfold bind, print, emit, ret. simpl. discriminate.
  - cbn [api_loop]. unfold bind at 1. unfold requests_get at 1.
    destruct (net url (requests_made w)) as [data|e] eqn:E.
    + unfold ret. intros H. injection H as <- _. now exists (requests_made w).
    + destruct (caught e); [|unfold raise; discriminate].
      unfold bind at 1. unfold print at 1, emit at 1. unfold bind at 1.
      destruct (a <? retries - 1).
      * destruct (time_sleep (inject_Z delay) _) as [[[]|e'] w2];
          [apply IH|discriminate].
      * unfold ret at 1. apply IH.
Qed.

Lemma rows_of_app ts ts' : rows_of (ts ++ ts') = rows_of ts ++ rows_of ts'.
Proof. unfold rows_of. now rewrite map_app, concat_app. Qed.

Lemma rows_of_single t : rows_of [t] = t_rows t.
Proof. unfold rows_of. simpl. apply app_nil_r. Qed.

Lemma pd_concat_keys lib frames :
  map row_key (pd_concat lib frames) = map row_key (rows_of frames).
Proof.
  unfold pd_concat. destruct (concat_dtype lib frames);
    try reflexivity. apply astype_float64_keys.
Qed.


Lemma day_frame_keys es d :
  map row_key (t_rows (day_frame es d))
  = map (fun e => (d, e_article e)) es.
Proof. unfold day_frame. cbn [t_rows]. rewrite map_map. reflexivity. Qed.

Lemma day_frame_date es d r : In r (t_rows (day_frame es d)) -> date r = d.
Proof.
  unfold day_frame. cbn [t_rows]. intros H. apply in_map_iff in H.
  destruct H as (e & <- & _). reflexivity.
Qed.

Section CollectedKeys.

Variable net : string -> nat -> attempt_result.
Variable strftime : Z -> string -> string.
Variable lib : pandas.

(** No response lists an article twice. *)
Hypothesis articles_once :
  forall url n p es,
    net url n = Returned p -> day_articles p = Ok es ->
    NoDup (map e_article es).

Lemma collect_unique_per_day dates :
  forall acc w frames,
    NoDup dates ->
    unique_per_day (rows_of acc) ->
    (forall r, In r (rows_of acc) -> ~ In (date r) dates) ->
    fst (collect net strftime dates acc w) = Ok frames ->
    unique_per_day (rows_of frames).
Proof.
  induction dates as [|d rest IH]; intros acc w frames Hnd Hu Hfresh.
  - simpl. intros H. injection H as <-. exact Hu.
  - inversion Hnd as [|? ? Hd Hnd']; subst.
    cbn [collect]. unfold bind at 1.
    destruct (get_top_wiki_articles net "en.wikipedia" (strftime d "%Y")
                (strftime d "%m") (strftime d "%d") "all-access" 3 1 w)
      as [[data|e] w1] eqn:G; [|discriminate].
    destruct (no_valid_data data) eqn:Hskip.
    + unfold bind at 1. unfold print at 1, emit at 1.
      apply IH; [exact Hnd'|exact Hu|].
      intros r Hr Hin. apply (Hfresh r Hr). now right.
    + destruct data as [p|]; [|discriminate].
      unfold bind at 1. unfold lift at 1.
      destruct (day_articles p) as [es|e] eqn:Hes; [|discriminate].
      unfold bind at 1.
      destruct (time_sleep PAUSE w1) as [[[]|e'] w2]; [|discriminate].
      destruct (api_loop_returned _ _ _ _ _ _ _ _ G) as (n & Hn).
      pose proof (articles_once _ _ _ _ Hn Hes) as Hes_nd.
      apply IH; [exact Hnd'| |].
      * unfold unique_per_day in *.
        rewrite rows_of_app, rows_of_single, map_app.
        apply NoDup_app; [exact Hu| |].
        -- change (NoDup (map row_key (t_rows (day_frame es d)))).
           rewrite day_frame_keys.
           rewrite <- (map_map e_article (fun a => (d, a))).
           apply Finite.Injective_map_NoDup; [|exact Hes_nd].
           intros x y H. now injection H.
        -- intros k Hk Hk'. apply in_map_iff in Hk.
           destruct Hk as (r & <- & Hr).
           apply in_map_iff in Hk'. destruct Hk' as (r' & Hkey & Hr').
           apply day_frame_date in Hr'. injection Hkey as Hdate _.
           apply (Hfresh r Hr). left. congruence.
      * intros r Hr Hin. rewrite rows_of_app, rows_of_single in Hr.
        apply in_app_or in Hr. destruct Hr as [Hr|Hr].
        -- apply (Hfresh r Hr). now right.
        -- apply day_frame_date in Hr. congruence.
Qed.

(** What [main] collects over a range satisfies [unique_per_day]. *)
Lemma collected_unique_per_day start_date end_date w frames :
  fst (collect net strftime (date_range start_date end_date) [] w)
  = Ok frames ->
  unique_per_day (pd_concat lib frames).
Proof.
  intros H. unfold unique_per_day.
  change (NoDup (map row_key (pd_concat lib frames))).
  rewrite pd_concat_keys.
  revert H. apply collect_unique_per_day.
  - apply date_range_NoDup.
  - constructor.
  - intros r [].
Qed.

End CollectedKeys.

(** ** The collected numbers *)

Lemma cell_exact dt v x :
  (forall z, v = Some z -> Z.abs z <= 2 ^ 53) ->
  cell dt v = Some x -> v = Some x.
Proof.
  intros Hv. destruct v as [z|]; [|destruct dt; discriminate].
  destruct dt; cbn [cell option_map]; try (intros H; exact H).
  now rewrite float64_of_Z_exact by (now apply Hv).
Qed.

Section CollectedExact.

Variable net : string -> nat -> attempt_result.
Variable strftime : Z -> string -> string.
Variable lib : pandas.

(** Every number of views of every response is exact in float64. *)
Hypothesis views_exact :
  forall url n p es e v,
    net url n = Returned p -> day_articles p = Ok es ->
    In e es -> e_views e = Some v -> Z.abs v <= 2 ^ 53.

Lemma collect_exact dates :
  forall acc w frames,
    exact_in_float64 (rows_of acc) ->
    fst (collect net strftime dates acc w) = Ok frames ->
    exact_in_float64 (rows_of frames).
Proof.
  induction dates as [|d rest IH]; intros acc w frames Hex.
  - simpl. intros H. injection H as <-. exact Hex.
  - cbn [collect]. unfold bind at 1.
    destruct (get_top_wiki_articles net "en.wikipedia" (strftime d "%Y")
                (strftime d "%m") (strftime d "%d") "all-access" 3 1 w)
      as [[data|e] w1] eqn:G; [|discriminate].
    destruct (no_valid_data data) eqn:Hskip.
    + unfold bind at 1. unfold print at 1, emit at 1.
      apply IH. exact Hex.
    + destruct data as [p|]; [|discriminate].
      unfold bind at 1. unfold lift at 1.
      destruct (day_articles p) as [es|e] eqn:Hes; [|discriminate].
      unfold bind at 1.
      destruct (time_sleep PAUSE w1) as [[[]|e'] w2]; [|discriminate].
      destruct (api_loop_returned _ _ _ _ _ _ _ _ G) as (n & Hn).
      apply IH. intros r v Hr Hv.
      rewrite rows_of_app, rows_of_single in Hr.
      apply in_app_or in Hr. destruct Hr as [Hr|Hr];
        [exact (Hex r v Hr Hv)|].
      unfold day_frame in Hr. cbn [t_rows] in Hr.
      apply in_map_iff in Hr. destruct Hr as (e0 & <- & He0).
      cbn [views] in Hv. apply cell_exact in Hv.
      * exact (views_exact _ _ _ _ _ _ Hn Hes He0 Hv).
      * intros z Hz. exact (views_exact _ _ _ _ _ _ Hn Hes He0 Hz).
Qed.

(** The frame [main] analyses then holds the collected numbers
    unchanged. *)
Lemma collected_exact start_date end_date w frames :
  fst (collect net strftime (date_range start_date end_date) [] w)
  = Ok frames ->
  exact_in_float64 (pd_concat lib frames).
Proof.
  intros H. apply collect_exact in H; [|intros r v []].
  unfold pd_concat. destruct (concat_dtype lib frames); try exact H.
  now rewrite astype_float64_exact.
Qed.

End CollectedExact.

(** C1, amended.  When no response lists an article twice (the data
    model's key on a day's batch) and [main] succeeds, then for every
    selected article the densified frame holds exactly the days from
    [start_date] to [end_date], each once and in order.  When moreover
    every collected number of views is at most 2^53 in magnitude, so that
    float64 holds it exactly, the views shown on a day are the known value
    of the most recent day up to it, and no value is shown before the
    article's first known value. *)
Theorem densified_series_complete_and_forward_filled
    (net : string -> nat -> attempt_result)
    (strftime : Z -> string -> string)
    (lib : pandas) (start_date end_date : Z)
    (w : world) (out : analysis) (a : string) :
  (forall url n p es,
      net url n = Returned p -> day_articles p = Ok es ->
      NoDup (map e_article es)) ->
  fst (main net strftime lib start_date end_date w) = Ok out ->
  In a (top_articles out) ->
  exists frames,
    fst (collect net strftime (date_range start_date end_date) [] w)
    = Ok frames
    /\ map date (filter (fun r => String.eqb (article r) a) (df_plot out))
       = date_range start_date end_date
    /\ NoDup (date_range start_date end_date)
    /\ (forall d, In d (date_range start_date end_date)
                  <-> start_date <= d <= end_date)
    /\ ((forall url n p es e v,
            net url n = Returned p -> day_articles p = Ok es ->
            In e es -> e_views e = Some v -> Z.abs v <= 2 ^ 53) ->
        forall r, In r (df_plot out) -> article r = a ->
                  forward_filled (pd_concat lib frames) a start_date
                                 (date r) (views r)).
Proof.
  intros Honce Hmain Ha.
  destruct (main_ok net strftime lib start_date end_date w out
              Hmain) as (frames & Hc & Han).
  exists frames. split; [exact Hc|].
  pose proof (collected_unique_per_day net strftime lib Honce
                start_date end_date w frames Hc) as Hu.
  apply analyse_ok in Han.
  destruct Han as (_ & Htop & Hplot & _).
  rewrite Htop in Ha. rewrite Hplot.
  destruct (df_plot_dense_and_filled (pd_concat lib frames) start_date end_date
              a Hu Ha) as (Hdates & Hnd & Hin & Hfill).
  split; [exact Hdates|]. split; [exact Hnd|]. split; [exact Hin|].
  intros Hexact. apply Hfill.
  exact (collected_exact net strftime lib Hexact start_date end_date w frames
           Hc).
Qed.

Lemma densified_series_complete_and_forward_filled_witness :
  exists frames,
    fst (collect net_middle_day_missing strftime_id (date_range 1 3) []
           world0) = Ok frames
    /\ map date (filter (fun r => String.eqb (article r) "A")
                        (df_plot out_scenario))
       = date_range 1 3
    /\ NoDup (date_range 1 3)
    /\ (forall d, In d (date_range 1 3) <-> 1 <= d <= 3)
    /\ (forall r, In r (df_plot out_scenario) -> article r = "A"%string ->
                  forward_filled (pd_concat exact_lib frames) "A" 1
                                 (date r) (views r)).
Proof.
  destruct (densified_series_complete_and_forward_filled
              net_middle_day_missing strftime_id exact_lib 1 3 world0
              out_scenario "A")
    as (frames & Hc & Hdates & Hnd & Hin & Hfill).
  - intros url n p es Hn Hes. unfold net_middle_day_missing in Hn.
    destruct n as [|[|n]]; injection Hn as <-; try discriminate;
      injection Hes as <-; simpl;
      repeat constructor; simpl; intuition discriminate.
  - vm_compute. reflexivity.
  - vm_compute. in_list.
  - exists frames. split; [exact Hc|]. split; [exact Hdates|].
    split; [exact Hnd|]. split; [exact Hin|]. apply Hfill.
    intros url n p es e v Hn Hes He Hv. unfold net_middle_day_missing in Hn.
    destruct n as [|[|n]]; injection Hn as <-; try discriminate;
      injection Hes as <-; simpl in He;
      destruct He as [<-|[<-|[]]]; vm_compute in Hv; injection Hv as <-;
      vm_compute; discriminate.
Defined.

Example scenario_collected :
  pd_concat exact_lib
    (value_of_frames
       (fst (collect net_middle_day_missing strftime_id (date_range 1 3) []
               world0)))
  = df_scenario.
Proof. vm_compute. reflexivity. Qed.

(** C1, the claim as stated fails: article A is collected with 2^53 + 1
    views on the first of two days and the second day has no data.  The
    left merge leaves the second day without a number, the column becomes
    float64, and the densified frame shows 2^53 on both days: the value
    filled in on the missing day is not the known value of the day
    before. *)
Lemma forward_fill_rounds_large_values :
  exists frames out,
    fst (collect net_big strftime_id (date_range 1 2) [] world0) = Ok frames
    /\ pd_concat exact_lib frames = [mkRow 1 "A" (Some (2 ^ 53 + 1))]
    /\ fst (main net_big strftime_id exact_lib 1 2 world0) = Ok out
    /\ top_articles out = ["A"]%string
    /\ df_plot out
       = [mkRow 1 "A" (Some (2 ^ 53)); mkRow 2 "A" (Some (2 ^ 53))]
    /\ ~ forward_filled (pd_concat exact_lib frames) "A" 1 2 (Some (2 ^ 53)).
Proof.
  eexists. eexists. split; [vm_compute; reflexivity|].
  split; [vm_compute; reflexivity|].
  split; [vm_compute; reflexivity|].
  split; [vm_compute; reflexivity|].
  split; [vm_compute; reflexivity|].
  intros (d0 & _ & Hobs & _). unfold observed in Hobs.
  vm_compute in Hobs. destruct Hobs as [Heq|[]]. discriminate.
Qed.

(* ================================================================== *)
(** * Further properties of the fetcher *)

Section FetcherMore.

Variable net : string -> nat -> attempt_result.
Variables (url : string) (retries delay : Z) (errs : nat -> exn).

Lemma world_eta w : mkWorld (requests_made w) (log w) = w.
Proof. now destruct w. Qed.

(** Failed attempts that are not the last one are each followed by a sleep,
    and the loop goes on with the remaining attempts. *)
Lemma api_loop_retried_prefix (n0 : nat) :
  0 <= delay ->
  forall m k rest w,
    requests_made w = (n0 + k)%nat ->
    Z.of_nat (k + m) < retries \/ m = 0%nat ->
    (forall i, (k <= i < k + m)%nat ->
               net url (n0 + i) = Raised (errs i)
               /\ caught (errs i) = true) ->
    api_loop net url retries delay (map Z.of_nat (seq k m) ++ rest) w
    = api_loop net url retries delay rest
        (mkWorld (n0 + k + m)
           (log w ++ flat_map (retried_attempt_log url delay errs)
                              (seq k m))).
Proof.
  intros Hd m. induction m as [|m IH]; intros k rest w Hw Hlt Hall.
  - simpl. rewrite app_nil_r, Nat.add_0_r, <- Hw. now rewrite world_eta.
  - destruct Hlt as [Hlt|Hlt]; [|discriminate].
    cbn [seq map app api_loop].
    destruct (Hall k ltac:(lia)) as [Hnet Hc].
    unfold bind at 1. unfold requests_get at 1. rewrite Hw, Hnet, Hc.
    unfold bind at 1. unfold print at 1, emit at 1.
    unfold bind at 1.
    replace (Z.of_nat k <? retries - 1) with true
      by (symmetry; apply Z.ltb_lt; lia).
    rewrite time_sleep_nonneg by exact Hd.
    rewrite IH; cbn [requests_made log];
      try lia; try (intros i Hi; apply Hall; lia).
    f_equal. f_equal; [lia|].
    cbn [flat_map]. unfold retried_attempt_log at 2.
    repeat rewrite <- app_assoc. reflexivity.
Qed.

End FetcherMore.

Lemma range_split (retries : Z) (k : nat) :
  (k < Z.to_nat retries)%nat ->
  range retries
  = map Z.of_nat (seq 0 k)
    ++ Z.of_nat k :: map Z.of_nat (seq (S k) (Z.to_nat retries - S k)).
Proof.
  intros Hk. unfold range.
  replace (Z.to_nat retries) with (k + S (Z.to_nat retries - S k))%nat
    at 1 by lia.
  rewrite seq_app, map_app. reflexivity.
Qed.

(** X1. The fetcher returns the body of the first attempt that succeeds:
    after [k] failed attempts, each followed by a sleep of [delay] seconds,
    attempt [k] returns its data at once, [k + 1] requests having been
    made. *)
Theorem api_returns_first_success
    (net : string -> nat -> attempt_result)
    (end_point args api_url : string) (retries delay : Z)
    (errs : nat -> exn) (k : nat) (data : payload) (w : world) :
  let url := (api_url ++ "/" ++ end_point ++ "/" ++ args)%string in
  0 <= delay ->
  (k < Z.to_nat retries)%nat ->
  (forall i, (i < k)%nat ->
             net url (requests_made w + i)%nat = Raised (errs i)
             /\ caught (errs i) = true) ->
  net url (requests_made w + k)%nat = Returned data ->
  __api__ net end_point args api_url retries delay w
  = (Ok (Some data),
     mkWorld (requests_made w + k + 1)
       (log w ++ flat_map (retried_attempt_log url delay errs) (seq 0 k)
              ++ [EvGet url])).
Proof.
  intros url Hd Hk Hfail Hok. unfold __api__. fold url.
  rewrite (range_split retries k Hk).
  rewrite (api_loop_retried_prefix net url retries delay errs
             (requests_made w) Hd k 0); try lia.
  - cbn [api_loop]. unfold bind, requests_get, ret. cbn [requests_made log].
    rewrite Nat.add_0_r, Hok. f_equal. f_equal; [lia|].
    now rewrite <- app_assoc.
  - intros i Hi. apply Hfail. lia.
Qed.

Lemma api_returns_first_success_witness :
  __api__ net_flaky "pageviews/top" "en.wikipedia/all-access/2024/01/01"
    "https://example.org" 3 1 world0
  = (Ok (Some (day_payload [mkEntry "A" (Some 10)])),
     mkWorld (requests_made world0 + 1 + 1)
       (log world0
        ++ flat_map
             (retried_attempt_log
                "https://example.org/pageviews/top/en.wikipedia/all-access/2024/01/01"
                1 (fun _ => RequestException "timeout"))
             (seq 0 1)
        ++ [EvGet
              "https://example.org/pageviews/top/en.wikipedia/all-access/2024/01/01"])).
Proof.
  apply (api_returns_first_success net_flaky "pageviews/top"
           "en.wikipedia/all-access/2024/01/01" "https://example.org" 3 1
           (fun _ => RequestException "timeout") 1
           (day_payload [mkEntry "A" (Some 10)]) world0).
  - lia.
  - simpl. lia.
  - intros i Hi. assert (i = 0%nat) as -> by lia. split; reflexivity.
  - reflexivity.
Defined.

(** X2. An exception outside the two classes of the [except] clause is not
    retried: it leaves the fetcher at the attempt that raised it, with no
    message printed for it and no further request. *)
Theorem api_propagates_uncaught_exception
    (net : string -> nat -> attempt_result)
    (end_point args api_url : string) (retries delay : Z)
    (errs : nat -> exn) (k : nat) (e : exn) (w : world) :
  let url := (api_url ++ "/" ++ end_point ++ "/" ++ args)%string in
  0 <= delay ->
  (k < Z.to_nat retries)%nat ->
  (forall i, (i < k)%nat ->
             net url (requests_made w + i)%nat = Raised (errs i)
             /\ caught (errs i) = true) ->
  net url (requests_made w + k)%nat = Raised e ->
  caught e = false ->
  __api__ net end_point args api_url retries delay w
  = (Raise e,
     mkWorld (requests_made w + k + 1)
       (log w ++ flat_map (retried_attempt_log url delay errs) (seq 0 k)
              ++ [EvGet url])).
Proof.
  intros url Hd Hk Hfail Hraise Hc. unfold __api__. fold url.
  rewrite (range_split retries k Hk).
  rewrite (api_loop_retried_prefix net url retries delay errs
             (requests_made w) Hd k 0); try lia.
  - cbn [api_loop]. unfold bind, requests_get, raise.
    cbn [requests_made log].
    rewrite Nat.add_0_r, Hraise, Hc. f_equal. f_equal; [lia|].
    now rewrite <- app_assoc.
  - intros i Hi. apply Hfail. lia.
Qed.

Lemma api_propagates_uncaught_exception_witness :
  __api__ net_crash "pageviews/top" "en.wikipedia/all-access/2024/01/01"
    "https://example.org" 3 1 world0
  = (Raise (OtherException "KeyboardInterrupt"),
     mkWorld (requests_made world0 + 1 + 1)
       (log world0
        ++ flat_map
             (retried_attempt_log
                "https://example.org/pageviews/top/en.wikipedia/all-access/2024/01/01"
                1 (fun _ => RequestException "timeout"))
             (seq 0 1)
        ++ [EvGet
              "https://example.org/pageviews/top/en.wikipedia/all-access/2024/01/01"])).
Proof.
  apply (api_propagates_uncaught_exception net_crash "pageviews/top"
           "en.wikipedia/all-access/2024/01/01" "https://example.org" 3 1
           (fun _ => RequestException "timeout") 1
           (OtherException "KeyboardInterrupt") world0).
  - lia.
  - simpl. lia.
  - intros i Hi. assert (i = 0%nat) as -> by lia. split; reflexivity.
  - reflexivity.
  - reflexivity.
Defined.

Lemma count_gets_app l l' :
  count_gets (l ++ l') = (count_gets l + count_gets l')%nat.
Proof. unfold count_gets. now rewrite filter_app, List.length_app. Qed.

Lemma time_sleep_trace q w :
  requests_made (snd (time_sleep q w)) = requests_made w
  /\ exists evs, log (snd (time_sleep q w)) = log w ++ evs
                 /\ count_gets evs = 0%nat
                 /\ forall u, ~ In (EvGet u) evs.
Proof.
  unfold time_sleep. destruct (Qnum q <? 0); simpl.
  - split; [reflexivity|]. exists []. rewrite app_nil_r.
    split; [reflexivity|]. split; [reflexivity|]. intros u [].
  - split; [reflexivity|]. exists [EvSleep q].
    split; [reflexivity|]. split; [reflexivity|].
    intros u [H|[]]. discriminate.
Qed.

(** Whatever the network does, the loop makes at most one request per
    attempt, all of them to [url]. *)
Lemma api_loop_trace net url retries delay attempts :
  forall w r w',
    api_loop net url retries delay attempts w = (r, w') ->
    exists evs,
      log w' = log w ++ evs
      /\ requests_made w' = (requests_made w + count_gets evs)%nat
      /\ (count_gets evs <= List.length attempts)%nat
      /\ forall u, In (EvGet u) evs -> u = url.
Proof.
  induction attempts as [|a rest IH]; intros w r w' H.
  - simpl in H. unfold bind, print, emit, ret in H. simpl in H.
    injection H as <- <-.
    exists [EvPrint (MsgGaveUp retries url)].
    split; [reflexivity|]. split; [unfold count_gets; simpl; lia|].
    split; [unfold count_gets; simpl; lia|].
    intros u [H|[]]. discriminate.
  - cbn [api_loop] in H. unfold bind at 1 in H.
    unfold requests_get at 1 in H.
    destruct (net url (requests_made w)) as [data|e].
    + unfold ret in H. injection H as <- <-.
      exists [EvGet url].
      split; [reflexivity|]. split; [unfold count_gets; simpl; lia|].
      split; [unfold count_gets; simpl; lia|].
      intros u [H|[]]. now injection H.
    + destruct (caught e).
      * unfold bind at 1 in H. unfold print at 1, emit at 1 in H.
        cbn [requests_made log] in H.
        set (w1 := mkWorld (S (requests_made w))
                     ((log w ++ [EvGet url])
                      ++ [EvPrint (MsgAttemptFailed (a + 1) e)])) in H.
        unfold bind at 1 in H.
        assert (Hstep : forall w2 evs2,
                  requests_made w2 = requests_made w1 ->
                  log w2 = log w1 ++ evs2 ->
                  count_gets evs2 = 0%nat ->
                  (forall u, ~ In (EvGet u) evs2) ->
                  api_loop net url retries delay rest w2 = (r, w') ->
                  exists evs,
                    log w' = log w ++ evs
                    /\ requests_made w'
                       = (requests_made w + count_gets evs)%nat
                    /\ (count_gets evs <= S (List.length rest))%nat
                    /\ forall u, In (EvGet u) evs -> u = url).
        { intros w2 evs2 Hr Hl Hc Hn Hrun.
          destruct (IH w2 r w' Hrun) as (evs & Hlog & Hreq & Hcnt & Hurl).
          exists ([EvGet url; EvPrint (MsgAttemptFailed (a + 1) e)]
                  ++ evs2 ++ evs).
          split; [|split; [|split]].
          - rewrite Hlog, Hl. unfold w1. cbn [log].
            repeat rewrite <- app_assoc. reflexivity.
          - rewrite Hreq, Hr. unfold w1. cbn [requests_made].
            rewrite !count_gets_app, Hc. unfold count_gets in *. simpl. lia.
          - rewrite !count_gets_app, Hc. unfold count_gets in *. simpl. lia.
          - intros u Hu. apply in_app_or in Hu. destruct Hu as [Hu|Hu].
            + destruct Hu as [H'|[H'|[]]]; [now injection H'|discriminate].
            + apply in_app_or in Hu. destruct Hu as [Hu|Hu];
                [now apply Hn in Hu|now apply Hurl]. }
        destruct (a <? retries - 1).
        -- destruct (time_sleep_trace (inject_Z delay) w1)
             as (Hr & evs2 & Hl & Hc & Hn).
           destruct (time_sleep (inject_Z delay) w1) as [[[]|e'] w2];
             cbn [snd] in *.
           ++ now apply (Hstep w2 evs2).
           ++ injection H as <- <-.
              exists ([EvGet url; EvPrint (MsgAttemptFailed (a + 1) e)]
                      ++ evs2).
              split; [|split; [|split]].
              ** rewrite Hl. unfold w1. cbn [log].
                 repeat rewrite <- app_assoc. reflexivity.
              ** rewrite Hr. unfold w1. cbn [requests_made].
                 rewrite count_gets_app, Hc. unfold count_gets in *. simpl. lia.
              ** rewrite count_gets_app, Hc. unfold count_gets in *. simpl. lia.
              ** intros u Hu. apply in_app_or in Hu.
                 destruct Hu as [[H'|[H'|[]]]|Hu];
                   [now injection H'|discriminate|now apply Hn in Hu].
        -- unfold ret at 1 in H. apply (Hstep w1 []); try reflexivity.
           ++ now rewrite app_nil_r.
           ++ intros u [].
           ++ exact H.
      * unfold raise in H. injection H as <- <-.
        exists [EvGet url].
        split; [reflexivity|]. split; [unfold count_gets; simpl; lia|].
        split; [unfold count_gets; simpl; lia|].
        intros u [H|[]]. now injection H.
Qed.

(** X3. Whatever the network answers, a call of the fetcher makes at most
    [retries] requests, all to the one URL it builds; with [retries] at
    most zero it makes none and returns [None]. *)
Theorem api_makes_at_most_retries_requests
    (net : string -> nat -> attempt_result)
    (end_point args api_url : string) (retries delay : Z) (w : world) :
  let url := (api_url ++ "/" ++ end_point ++ "/" ++ args)%string in
  let r := __api__ net end_point args api_url retries delay w in
  (exists evs,
      log (snd r) = log w ++ evs
      /\ requests_made (snd r) = (requests_made w + count_gets evs)%nat
      /\ (count_gets evs <= Z.to_nat retries)%nat
      /\ forall u, In (EvGet u) evs -> u = url)
  /\ (retries <= 0 ->
      r = (Ok None,
           mkWorld (requests_made w)
                   (log w ++ [EvPrint (MsgGaveUp retries url)]))).
Proof.
  intros url r. split.
  - unfold r, __api__. fold url.
    destruct (api_loop net url retries delay (range retries) w)
      as [res w'] eqn:E.
    destruct (api_loop_trace net url retries delay (range retries) w
                res w' E) as (evs & Hlog & Hreq & Hcnt & Hurl).
    exists evs. cbn [snd].
    split; [exact Hlog|]. split; [exact Hreq|]. split; [|exact Hurl].
    unfold range in Hcnt. now rewrite List.length_map, length_seq in Hcnt.
  - intros Hle. unfold r, __api__, range. fold url.
    replace (Z.to_nat retries) with 0%nat by lia. reflexivity.
Qed.

(** X4. A negative [delay] defeats the retry: [time.sleep] raises inside
    the handler, so when the first attempt fails and is not the last one,
    the [ValueError] of the sleep leaves the fetcher after a single
    request. *)
Theorem api_raises_on_negative_delay
    (net : string -> nat -> attempt_result)
    (end_point args api_url : string) (retries delay : Z)
    (e : exn) (w : world) :
  let url := (api_url ++ "/" ++ end_point ++ "/" ++ args)%string in
  delay < 0 ->
  2 <= retries ->
  net url (requests_made w) = Raised e ->
  caught e = true ->
  __api__ net end_point args api_url retries delay w
  = (Raise (ValueError "sleep length must be non-negative"),
     mkWorld (S (requests_made w))
             (log w ++ [EvGet url; EvPrint (MsgAttemptFailed 1 e)])).
Proof.
  intros url Hd Hr Hnet Hc. unfold __api__. fold url.
  rewrite (range_split retries 0) by lia.
  cbn [seq map app api_loop].
  unfold bind at 1. unfold requests_get at 1. rewrite Hnet, Hc.
  unfold bind at 1. unfold print at 1, emit at 1.
  unfold bind at 1.
  replace (Z.of_nat 0 <? retries - 1) with true
    by (symmetry; apply Z.ltb_lt; lia).
  unfold time_sleep. cbn [inject_Z Qnum].
  replace (delay <? 0) with true by (symmetry; apply Z.ltb_lt; lia).
  unfold raise. cbn [requests_made log].
  now rewrite <- app_assoc.
Qed.

Lemma api_raises_on_negative_delay_witness :
  __api__ net_down "pageviews/top" "en.wikipedia/all-access/2024/01/01"
    "https://example.org" 3 (-1) world0
  = (Raise (ValueError "sleep length must be non-negative"),
     mkWorld (S (requests_made world0))
       (log world0
        ++ [EvGet
              "https://example.org/pageviews/top/en.wikipedia/all-access/2024/01/01";
            EvPrint (MsgAttemptFailed 1
                       (RequestException "connection refused"))])).
Proof.
  apply (api_raises_on_negative_delay net_down "pageviews/top"
           "en.wikipedia/all-access/2024/01/01" "https://example.org"
           3 (-1) (RequestException "connection refused") world0).
  - lia.
  - lia.
  - reflexivity.
  - reflexivity.
Defined.

(* ================================================================== *)
(** * Further properties of the collection loop and of [main] *)

Lemma run_trace_refl w P : run_trace w w 0 P.
Proof.
  exists []. rewrite app_nil_r.
  split; [reflexivity|]. split; [unfold count_gets; simpl; lia|].
  split; [unfold count_gets; simpl; lia|]. intros u [].
Qed.

Lemma run_trace_trans w w1 w2 b1 b2 (P : string -> Prop) :
  run_trace w w1 b1 P -> run_trace w1 w2 b2 P ->
  run_trace w w2 (b1 + b2) P.
Proof.
  intros (e1 & Hl1 & Hr1 & Hc1 & Hu1) (e2 & Hl2 & Hr2 & Hc2 & Hu2).
  exists (e1 ++ e2).
  split; [now rewrite Hl2, Hl1, app_assoc|].
  split; [rewrite Hr2, Hr1, count_gets_app; lia|].
  split; [rewrite count_gets_app; lia|].
  intros u Hu. apply in_app_or in Hu. destruct Hu; auto.
Qed.

Lemma run_trace_weaken w w' b b' (P Q : string -> Prop) :
  run_trace w w' b P -> (b <= b')%nat -> (forall u, P u -> Q u) ->
  run_trace w w' b' Q.
Proof.
  intros (evs & Hl & Hr & Hc & Hu) Hb HPQ. exists evs.
  split; [exact Hl|]. split; [exact Hr|]. split; [lia|]. auto.
Qed.

Lemma run_trace_emit w e P :
  is_get e = false ->
  run_trace w (mkWorld (requests_made w) (log w ++ [e])) 0 P.
Proof.
  intros He. exists [e]. cbn [log requests_made].
  split; [reflexivity|].
  split; [unfold count_gets; simpl; rewrite He; simpl; lia|].
  split; [unfold count_gets; simpl; rewrite He; simpl; lia|].
  intros u [->|[]]. discriminate.
Qed.

Lemma time_sleep_run_trace q w r w' P :
  time_sleep q w = (r, w') -> run_trace w w' 0 P.
Proof.
  unfold time_sleep. destruct (Qnum q <? 0).
  - unfold raise. intros H. injection H as <- <-. apply run_trace_refl.
  - unfold emit. intros H. injection H as <- <-.
    now apply run_trace_emit.
Qed.

Lemma day_url_eq strftime d :
  (API_BASE_URL ++ "/" ++ TOP_ENDPOINT ++ "/"
   ++ TOP_ARGS "en.wikipedia" "all-access" (strftime d "%Y")
        (strftime d "%m") (strftime d "%d"))%string
  = day_url strftime d.
Proof. reflexivity. Qed.

Section CollectorMore.

Variable net : string -> nat -> attempt_result.
Variable strftime : Z -> string -> string.

Lemma get_top_day_run_trace d w r w' :
  get_top_wiki_articles net "en.wikipedia" (strftime d "%Y")
    (strftime d "%m") (strftime d "%d") "all-access" 3 1 w = (r, w') ->
  run_trace w w' 3 (fun u => u = day_url strftime d).
Proof.
  unfold get_top_wiki_articles, __api__. rewrite day_url_eq.
  intros H. apply api_loop_trace in H. exact H.
Qed.

Lemma collect_run_trace dates :
  forall acc w r w',
    collect net strftime dates acc w = (r, w') ->
    run_trace w w' (3 * List.length dates)
              (fun u => exists d, In d dates /\ u = day_url strftime d).
Proof.
  induction dates as [|d rest IH]; intros acc w r w' H.
  - simpl in H. unfold ret in H. injection H as <- <-.
    apply run_trace_refl.
  - cbn [collect] in H. unfold bind at 1 in H.
    destruct (get_top_wiki_articles net "en.wikipedia" (strftime d "%Y")
                (strftime d "%m") (strftime d "%d") "all-access" 3 1 w)
      as [res w1] eqn:G.
    apply get_top_day_run_trace in G.
    assert (Hday : run_trace w w1 3
              (fun u => exists d0, In d0 (d :: rest)
                                   /\ u = day_url strftime d0)).
    { eapply run_trace_weaken; [exact G|lia|].
      intros u ->. exists d. split; [now left|reflexivity]. }
    assert (Hrest : forall acc' w2,
              run_trace w1 w2 0
                (fun u => exists d0, In d0 (d :: rest)
                                     /\ u = day_url strftime d0) ->
              collect net strftime rest acc' w2 = (r, w') ->
              run_trace w w' (3 * List.length (d :: rest))
                (fun u => exists d0, In d0 (d :: rest)
                                     /\ u = day_url strftime d0)).
    { intros acc' w2 H12 Hrun. apply IH in Hrun.
      eapply run_trace_weaken.
      - eapply run_trace_trans; [exact Hday|].
        eapply run_trace_trans; [exact H12|].
        eapply run_trace_weaken; [exact Hrun|apply Nat.le_refl|].
        intros u (d0 & Hd0 & ->). exists d0. split; [now right|reflexivity].
      - simpl. lia.
      - intros u Hu. exact Hu. }
    assert (Hstop : run_trace w w1 (3 * List.length (d :: rest))
              (fun u => exists d0, In d0 (d :: rest)
                                   /\ u = day_url strftime d0)).
    { eapply run_trace_weaken;
        [exact Hday|simpl; lia|intros u Hu; exact Hu]. }
    destruct res as [data|e]; [|injection H as <- <-; exact Hstop].
    destruct (no_valid_data data).
    + unfold bind at 1 in H. unfold print at 1, emit at 1 in H.
      eapply Hrest; [|exact H]. now apply run_trace_emit.
    + destruct data as [p|];
        [|unfold raise in H; injection H as <- <-; exact Hstop].
      unfold bind at 1 in H. unfold lift at 1 in H.
      destruct (day_articles p) as [es|e];
        [|injection H as <- <-; exact Hstop].
      unfold bind at 1 in H.
      destruct (time_sleep PAUSE w1) as [[[]|e'] w2] eqn:S.
      * eapply Hrest; [|exact H]. eapply time_sleep_run_trace. exact S.
      * injection H as <- <-.
        eapply run_trace_weaken;
          [|apply Nat.le_refl|intros u Hu; exact Hu].
        replace (3 * List.length (d :: rest))%nat
          with (3 * List.length (d :: rest) + 0)%nat by lia.
        eapply run_trace_trans; [exact Hstop|].
        eapply time_sleep_run_trace. exact S.
Qed.

End CollectorMore.


Lemma day_articles_ok_valid p es :
  day_articles p = Ok es -> no_valid_data (Some p) = false.
Proof.
  unfold day_articles, no_valid_data, dict_is_empty, has_items.
  destruct (p_items p) as [[|it its]|]; try discriminate. reflexivity.
Qed.

Section HealthyNetwork.

Variable net : string -> nat -> attempt_result.
Variable strftime : Z -> string -> string.
Variable answers : string -> nat -> list entry.

(** Every request is answered with a well-formed body. *)
Hypothesis healthy :
  forall url n, exists p,
    net url n = Returned p /\ day_articles p = Ok (answers url n).

Lemma collect_healthy dates :
  forall acc w,
    collect net strftime dates acc w
    = (Ok (acc ++ map (fun dn => day_frame
                                   (answers (day_url strftime (fst dn))
                                            (snd dn))
                                   (fst dn))
                      (combine dates
                               (seq (requests_made w) (List.length dates)))),
       mkWorld (requests_made w + List.length dates)
         (log w ++ flat_map (fun d => [EvGet (day_url strftime d);
                                       EvSleep PAUSE]) dates)).
Proof.
  induction dates as [|d rest IH]; intros acc w.
  - simpl. unfold ret. rewrite !app_nil_r, Nat.add_0_r.
    now rewrite world_eta.
  - cbn [collect]. unfold bind at 1.
    unfold get_top_wiki_articles, __api__. rewrite day_url_eq.
    change (range 3) with [0; 1; 2]. cbn [api_loop].
    unfold bind at 1. unfold requests_get at 1.
    destruct (healthy (day_url strftime d) (requests_made w))
      as (p & Hp & Hes).
    rewrite Hp. unfold ret at 1.
    rewrite (day_articles_ok_valid p _ Hes).
    unfold bind at 1. unfold lift at 1. rewrite Hes.
    unfold bind at 1. unfold time_sleep, emit. cbn [PAUSE Qnum Z.ltb
      Z.compare requests_made log].
    rewrite IH. cbn [requests_made log List.length seq combine map
      flat_map fst snd].
    f_equal.
    + f_equal. now rewrite <- app_assoc.
    + f_equal; [lia|]. repeat rewrite <- app_assoc. reflexivity.
Qed.

End HealthyNetwork.

(** X6. When every request is answered with a well-formed body, the
    collection loop makes exactly one request per day, in date order, each
    followed by the pause, and yields one frame per day holding that day's
    entries tagged with the day. *)
Theorem collect_one_request_per_day_when_healthy
    (net : string -> nat -> attempt_result)
    (strftime : Z -> string -> string)
    (answers : string -> nat -> list entry)
    (start_date end_date : Z) (w : world) :
  (forall url n, exists p,
      net url n = Returned p /\ day_articles p = Ok (answers url n)) ->
  let dates := date_range start_date end_date in
  collect net strftime dates [] w
  = (Ok (map (fun dn => day_frame (answers (day_url strftime (fst dn))
                                           (snd dn))
                                  (fst dn))
             (combine dates (seq (requests_made w) (List.length dates)))),
     mkWorld (requests_made w + List.length dates)
       (log w ++ flat_map (fun d => [EvGet (day_url strftime d);
                                     EvSleep PAUSE]) dates)).
Proof.
  intros Hh dates.
  exact (collect_healthy net strftime answers Hh dates [] w).
Qed.

Lemma collect_one_request_per_day_when_healthy_witness :
  let dates := date_range 1 3 in
  collect net_healthy strftime_id dates [] world0
  = (Ok (map (fun dn => day_frame
                          (answers_healthy (day_url strftime_id (fst dn))
                                           (snd dn))
                          (fst dn))
             (combine dates
                      (seq (requests_made world0) (List.length dates)))),
     mkWorld (requests_made world0 + List.length dates)
       (log world0 ++ flat_map (fun d => [EvGet (day_url strftime_id d);
                                          EvSleep PAUSE]) dates)).
Proof.
  apply (collect_one_request_per_day_when_healthy net_healthy strftime_id
           answers_healthy 1 3 world0).
  intros url n. eexists. split; reflexivity.
Defined.

(** ** The collected frame is in date order *)




Section CollectedOrder.

Variable net : string -> nat -> attempt_result.
Variable strftime : Z -> string -> string.


End CollectedOrder.



(** X8. Called with an end before the start, [main] makes no request and
    raises the "not collected" [ValueError], leaving the log as it was. *)
Theorem main_on_inverted_range
    (net : string -> nat -> attempt_result)
    (strftime : Z -> string -> string)
    (lib : pandas) (start_date end_date : Z)
    (w : world) :
  end_date < start_date ->
  main net strftime lib start_date end_date w
  = (Raise (ValueError MSG_NOT_COLLECTED), w).
Proof.
  intros H. unfold main, date_range.
  replace (Z.to_nat (end_date - start_date + 1)) with 0%nat by lia.
  reflexivity.
Qed.

Lemma main_on_inverted_range_witness :
  main net_healthy strftime_id exact_lib 5 2 world0
  = (Raise (ValueError MSG_NOT_COLLECTED), world0).
Proof.
  apply (main_on_inverted_range net_healthy strftime_id exact_lib 5 2
           world0).
  lia.
Defined.

(** X9. [main] saves the figure exactly when it returns: on success the
    figure is the last event of the log and the only one saved by the run;
    on any exception no figure is saved. *)
Theorem main_saves_figure_exactly_on_success
    (net : string -> nat -> attempt_result)
    (strftime : Z -> string -> string)
    (lib : pandas) (start_date end_date : Z)
    (w : world) :
  match fst (main net strftime lib start_date end_date w) with
  | Ok _ =>
      exists w1,
        log (snd (main net strftime lib start_date end_date w))
        = log w1 ++ [EvSavefig FIGURE_PATH]
        /\ made_figure w1 = made_figure w
  | Raise _ =>
      made_figure (snd (main net strftime lib start_date end_date w))
      = made_figure w
  end.
Proof.
  destruct (fst (main net strftime lib start_date end_date w))
    as [out|e] eqn:E;
    [|now apply (main_no_figure_on_raise net strftime lib
                   start_date end_date w e)].
  pose proof (collect_no_figure net strftime
                (date_range start_date end_date) [] w) as Hf.
  revert E. unfold main, bind.
  destruct (collect net strftime (date_range start_date end_date) [] w)
    as [[frames|e'] w1]; [|discriminate].
  destruct frames as [|f fs]; [discriminate|].
  unfold lift.
  destruct (analyse_collected lib (f :: fs) start_date end_date);
    [|discriminate].
  intros _. cbn [snd emit ret log] in *. exists w1.
  split; [reflexivity|exact Hf].
Qed.

(* ================================================================== *)
(** * Further properties of the analysis *)

Section AnalysisOutcome.

Variable lib : pandas.

Lemma analyse_some_views df start_date end_date :
  valid_views_of df <> [] ->
  exists out, analyse lib df start_date end_date = Ok out.
Proof.
  intros Hv. unfold analyse.
  destruct df as [|r df]; [exfalso; apply Hv; reflexivity|].
  pose proof (top_articles_nonempty (r :: df) ltac:(discriminate)) as Htop.
  unfold article_dfs_of.
  destruct (top_articles_of (r :: df)) as [|a top] eqn:E; [congruence|].
  cbn [map]. unfold valid_views_of in Hv. rewrite E in Hv.
  destruct (dropna_views (restrict_to (a :: top) (r :: df))) as [|v vs];
    [congruence|].
  eexists. reflexivity.
Qed.

(** A frame with a known views value has a selected row with one. *)
Lemma valid_views_nonempty df r0 :
  In r0 df -> views r0 <> None -> valid_views_of df <> [].
Proof.
  intros Hin Hv.
  assert (Hex : exists r, In r (valid_views_of df)).
  { destruct (last_values_complete (article r0) df (in_map article _ _ Hin))
      as (kb & Hkb).
    pose proof (last_values_latest _ _ _ Hkb) as Hlb.
    destruct kb as [vb|]; [|now specialize (Hlb r0 Hin eq_refl)].
    destruct (in_dec string_dec (article r0) (top_articles_of df))
      as [Hsel|Hnot].
    - exists r0. apply valid_views_in. auto.
    - assert (Hne : top_articles_of df <> [])
        by (apply top_articles_nonempty; intros ->; destruct Hin).
      destruct (top_articles_of df) as [|a top] eqn:E; [congruence|].
      assert (Ha : In a (top_articles_of df)) by (rewrite E; now left).
      destruct (last_values_complete a df (top_articles_subset df a Ha))
        as (ka & Hka).
      rewrite <- E in Hnot.
      destruct (top_articles_rank df a (article r0) ka (Some vb)
                  Hka Hkb Ha Hnot) as [Hge _].
      simpl in Hge. pose proof (last_values_latest _ _ _ Hka) as Hla.
      destruct ka as [va|]; [|discriminate].
      destruct Hla as (r & Hr & Har & Hvr & _).
      exists r. apply valid_views_in. rewrite Har.
      split; [exact Hr|]. split; [exact Ha|congruence]. }
  destruct Hex as (r & Hr). intros Hnil. rewrite Hnil in Hr. destruct Hr.
Qed.

(** On a numeric column the analysis succeeds exactly when some row has a
    views value. *)
Lemma analyse_outcome (df : frame) (start_date end_date : Z) :
  ((exists out, analyse lib df start_date end_date = Ok out)
   <-> exists r, In r df /\ views r <> None)
  /\ (df <> [] -> (forall r, In r df -> views r = None) ->
      analyse lib df start_date end_date
      = Raise (ValueError MSG_NO_VIEWS))
  /\ analyse lib df start_date end_date
     <> Raise (ValueError "No objects to concatenate").
Proof.
  assert (Hnone : df <> [] -> (forall r, In r df -> views r = None) ->
                  analyse lib df start_date end_date
                  = Raise (ValueError MSG_NO_VIEWS)).
  { intros Hdf Hall. apply analyse_no_views; [exact Hdf|].
    destruct (valid_views_of df) as [|r t] eqn:E; [reflexivity|].
    assert (Hr : In r (valid_views_of df)) by (rewrite E; now left).
    apply valid_views_in in Hr. destruct Hr as (Hr & _ & Hv).
    exfalso. apply Hv. now apply Hall. }
  split; [|split].
  - split.
    + intros (out & Hok). apply analyse_ok in Hok.
      destruct Hok as (Hv & _).
      destruct (valid_views_of df) as [|r t] eqn:E; [congruence|].
      assert (Hr : In r (valid_views_of df)) by (rewrite E; now left).
      apply valid_views_in in Hr. exists r. tauto.
    + intros (r & Hr & Hv). apply analyse_some_views.
      now apply (valid_views_nonempty df r).
  - exact Hnone.
  - destruct df as [|r0 df']; [discriminate|].
    destruct (valid_views_of (r0 :: df')) as [|r t] eqn:E.
    + rewrite (analyse_no_views lib (r0 :: df') start_date end_date
                 ltac:(discriminate) E).
      unfold MSG_NO_VIEWS. discriminate.
    + destruct (analyse_some_views (r0 :: df') start_date end_date)
        as (out & ->); [rewrite E|]; discriminate.
Qed.

End AnalysisOutcome.

(** X10. How the analysis of the collected frames ends.  It succeeds
    exactly when the concatenated [views] column is numeric (int64 or
    float64) and some row has a value.  Without a row it raises
    [KeyError] for the [article] column; with rows but no [views] column
    line 87 raises [KeyError]; on a column of objects [nlargest] raises
    [TypeError]; on a numeric column whose rows all lack a value it raises
    the "no views" [ValueError].  [pd.concat] on line 103 is never given
    an empty list. *)
Theorem analyse_succeeds_iff_some_views
    (lib : pandas)
    (frames : list table) (start_date end_date : Z) :
  ((exists out,
       analyse_collected lib frames start_date end_date = Ok out)
   <-> (concat_dtype lib frames = Int64 \/ concat_dtype lib frames = Float64)
       /\ exists r, In r (pd_concat lib frames) /\ views r <> None)
  /\ (pd_concat lib frames = [] ->
      analyse_collected lib frames start_date end_date
      = Raise (KeyError "article"))
  /\ (pd_concat lib frames <> [] -> concat_dtype lib frames = NoColumn ->
      analyse_collected lib frames start_date end_date
      = Raise (KeyError MSG_NO_COLUMN))
  /\ (pd_concat lib frames <> [] -> concat_dtype lib frames = ObjectDtype ->
      analyse_collected lib frames start_date end_date
      = Raise (TypeError MSG_NLARGEST_OBJECT))
  /\ (pd_concat lib frames <> [] ->
      concat_dtype lib frames = Int64 \/ concat_dtype lib frames = Float64 ->
      (forall r, In r (pd_concat lib frames) -> views r = None) ->
      analyse_collected lib frames start_date end_date
      = Raise (ValueError MSG_NO_VIEWS))
  /\ analyse_collected lib frames start_date end_date
     <> Raise (ValueError "No objects to concatenate").
Proof.
  destruct (analyse_outcome lib (pd_concat lib frames)
              start_date end_date) as (Hiff & Hnone & Hconcat).
  split; [|split; [|split; [|split; [|split]]]].
  - split.
    + intros (out & Hok). apply analyse_collected_ok in Hok.
      destruct Hok as [Hdt Hok]. split; [exact Hdt|].
      apply Hiff. now exists out.
    + intros (Hdt & Hex). rewrite analyse_collected_numeric by exact Hdt.
      now apply Hiff.
  - intros H. unfold analyse_collected. now rewrite H.
  - intros Hne Hdt. unfold analyse_collected. rewrite Hdt.
    destruct (pd_concat lib frames); [congruence|reflexivity].
  - intros Hne Hdt. unfold analyse_collected. rewrite Hdt.
    destruct (pd_concat lib frames); [congruence|reflexivity].
  - intros Hne Hdt Hall. rewrite analyse_collected_numeric by exact Hdt.
    now apply Hnone.
  - unfold analyse_collected.
    destruct (pd_concat lib frames) as [|r df] eqn:E; [discriminate|].
    destruct (concat_dtype lib frames); try discriminate; exact Hconcat.
Qed.

(** A frame of [null], a day of numbers followed by a day of [null], a
    frame without the key, a day without entries, and a day of [null] next
    to a missing key. *)
Example analysis_by_dtype :
  analyse_collected exact_lib
    [mkTable [mkRow 1 "A" None] ObjectDtype] 1 1
  = Raise (TypeError MSG_NLARGEST_OBJECT)
  /\ analyse_collected exact_lib
       [day_frame [mkEntry "A" (Some 10); mkEntry "B" (Some 5)] 1;
        day_frame [mkEntryField "A" ViewsNull] 2] 1 2
     = Raise (TypeError MSG_NLARGEST_OBJECT)
  /\ analyse_collected exact_lib
       [day_frame [mkEntryField "A" ViewsMissing] 1] 1 1
     = Raise (KeyError MSG_NO_COLUMN)
  /\ analyse_collected exact_lib [day_frame [] 1] 1 1
     = Raise (KeyError "article")
  /\ analyse_collected exact_lib
       [day_frame [mkEntryField "A" ViewsNull;
                   mkEntryField "B" ViewsMissing] 1] 1 1
     = Raise (ValueError MSG_NO_VIEWS).
Proof. repeat split; vm_compute; reflexivity. Qed.

(** Where the versions of pandas differ: a day with a number and NaN
    followed by a day of [null].  With the column of objects kept
    [nlargest] raises; where float64 wins the analysis goes through. *)
Example analysis_where_versions_differ :
  analyse_collected exact_lib
    [day_frame [mkEntry "A" (Some 5); mkEntry "B" None] 1;
     day_frame [mkEntryField "A" ViewsNull] 2] 1 2
  = Raise (TypeError MSG_NLARGEST_OBJECT)
  /\ exists out,
       analyse_collected legacy_lib
         [day_frame [mkEntry "A" (Some 5); mkEntry "B" None] 1;
          day_frame [mkEntryField "A" ViewsNull] 2] 1 2
       = Ok out
       /\ top_articles out = ["A"; "B"]%string
       /\ max_views out = 5.
Proof.
  split; [vm_compute; reflexivity|].
  eexists. split; [vm_compute; reflexivity|]. split; reflexivity.
Qed.

(** ** The maximum *)

Lemma fold_left_max l :
  forall x,
    In (fold_left Z.max l x) (x :: l)
    /\ x <= fold_left Z.max l x
    /\ forall y, In y l -> y <= fold_left Z.max l x.
Proof.
  induction l as [|z l IH]; intros x; simpl.
  - split; [now left|]. split; [lia|]. intros y [].
  - destruct (IH (Z.max x z)) as (Hin & Hle & Hall).
    split; [|split].
    + set (m := fold_left Z.max l (Z.max x z)) in *.
      destruct Hin as [Heq|Hin]; [|right; now right].
      destruct (Z.max_spec x z) as [[_ Hm]|[_ Hm]];
        [right; left; lia|left; lia].
    + lia.
    + intros y [<-|Hy]; [lia|now apply Hall].
Qed.

Lemma max_of_spec l :
  l <> [] -> In (max_of l) l /\ forall y, In y l -> y <= max_of l.
Proof.
  destruct l as [|x l]; [congruence|]. intros _. unfold max_of.
  destruct (fold_left_max l x) as (Hin & Hle & Hall).
  split; [exact Hin|]. intros y [<-|Hy]; [exact Hle|now apply Hall].
Qed.

Lemma views_of_in_iff v l :
  In v (views_of l) <-> exists r, In r l /\ views r = Some v.
Proof.
  unfold views_of. rewrite in_flat_map. split.
  - intros (r & Hr & Hv). exists r. split; [exact Hr|].
    destruct (views r) as [x|]; [|destruct Hv].
    destruct Hv as [->|[]]. reflexivity.
  - intros (r & Hr & Hv). exists r. split; [exact Hr|].
    rewrite Hv. now left.
Qed.

(** X11. On success the reported maximum is the views value of a collected
    row of a selected article, and no such row has a larger one; rows of
    articles left out do not count. *)
Theorem max_views_is_largest_selected_observation
    (lib : pandas)
    (df : frame) (start_date end_date : Z) (out : analysis) :
  analyse lib df start_date end_date = Ok out ->
  (exists r, In r df /\ In (article r) (top_articles out)
             /\ views r = Some (max_views out))
  /\ (forall r v, In r df -> In (article r) (top_articles out) ->
                  views r = Some v -> v <= max_views out).
Proof.
  intros Hok. apply analyse_ok in Hok.
  destruct Hok as (Hv & Htop & _ & _ & Hmax & _). rewrite Htop, Hmax.
  assert (Hne : views_of (valid_views_of df) <> []).
  { destruct (valid_views_of df) as [|r t] eqn:E; [congruence|].
    assert (Hr : In r (valid_views_of df)) by (rewrite E; now left).
    apply valid_views_in in Hr. destruct Hr as (_ & _ & Hsome).
    destruct (views r) as [x|] eqn:Ex; [|congruence].
    intros Hnil.
    assert (Hx : In x (views_of (r :: t)))
      by (apply views_of_in_iff; exists r; split; [now left|exact Ex]).
    rewrite Hnil in Hx. destruct Hx. }
  destruct (max_of_spec _ Hne) as (Hin & Hall). split.
  - apply views_of_in_iff in Hin. destruct Hin as (r & Hr & Hvr).
    apply valid_views_in in Hr. exists r. tauto.
  - intros r v Hr Hsel Hvr. apply Hall. apply views_of_in_iff.
    exists r. split; [|exact Hvr]. apply valid_views_in.
    split; [exact Hr|]. split; [exact Hsel|congruence].
Qed.

Lemma max_views_is_largest_selected_observation_witness :
  (exists r,
      In r df_scenario
      /\ In (article r)
            (top_articles (value_of (analyse exact_lib df_scenario 1 3)))
      /\ views r
         = Some (max_views (value_of (analyse exact_lib df_scenario 1 3))))
  /\ (forall r v,
        In r df_scenario ->
        In (article r)
           (top_articles (value_of (analyse exact_lib df_scenario 1 3))) ->
        views r = Some v ->
        v <= max_views (value_of (analyse exact_lib df_scenario 1 3))).
Proof.
  apply (max_views_is_largest_selected_observation exact_lib df_scenario
           1 3 (value_of (analyse exact_lib df_scenario 1 3))).
  vm_compute. reflexivity.
Defined.



(** ** The densified frame shows only known values *)

(** X14. Whatever the collected frame, duplicates included, every row of
    the densified frame belongs to a selected article and to a day of the
    range; when every number of the frame is at most 2^53 in magnitude, a
    views value it shows is the value of a collected row of that article
    dated within the range and not after the row. *)
Theorem df_plot_shows_only_known_values
    (df : frame) (start_date end_date : Z) (r : row) :
  In r (df_plot_of df start_date end_date) ->
  In (article r) (top_articles_of df)
  /\ start_date <= date r <= end_date
  /\ (exact_in_float64 df ->
      forall v, views r = Some v ->
                exists r0, In r0 df /\ article r0 = article r
                           /\ views r0 = Some v
                           /\ start_date <= date r0 <= date r).
Proof.
  intros Hr.
  assert (Hkey : exists r', In r' (df_plot_exact df start_date end_date)
                            /\ row_key r' = row_key r).
  { apply (in_map row_key) in Hr. rewrite df_plot_keys in Hr.
    apply in_map_iff in Hr. destruct Hr as (r' & Hk & Hr').
    exists r'. split; assumption. }
  destruct Hkey as (r' & Hr' & Hk). injection Hk as Hdate Hart.
  destruct (df_plot_exact_known df start_date end_date r' Hr')
    as (Hsel & Hrange & _).
  rewrite Hart in Hsel. rewrite Hdate in Hrange.
  split; [exact Hsel|]. split; [exact Hrange|].
  intros Hex. rewrite (df_plot_of_exact df start_date end_date Hex) in Hr.
  apply (df_plot_exact_known df start_date end_date r Hr).
Qed.

Lemma df_plot_shows_only_known_values_witness :
  In "A"%string (top_articles_of df_scenario)
  /\ 1 <= date (mkRow 2 "A" (Some 10)) <= 3
  /\ (forall v, views (mkRow 2 "A" (Some 10)) = Some v ->
                exists r0, In r0 df_scenario
                           /\ article r0 = article (mkRow 2 "A" (Some 10))
                           /\ views r0 = Some v
                           /\ 1 <= date r0 <= date (mkRow 2 "A" (Some 10))).
Proof.
  destruct (df_plot_shows_only_known_values df_scenario 1 3
              (mkRow 2 "A" (Some 10))) as (Hsel & Hrange & Hknown).
  - vm_compute. in_list.
  - split; [exact Hsel|]. split; [exact Hrange|]. apply Hknown.
    intros r v Hr Hv. simpl in Hr.
    destruct Hr as [<-|[<-|[<-|[<-|[]]]]]; injection Hv as <-;
      vm_compute; discriminate.
Defined.

(* ================================================================== *)
(** * The script *)

Lemma run_trace_mono w w' b P :
  run_trace w w' b P -> (requests_made w <= requests_made w')%nat.
Proof. intros (evs & _ & Hr & _). lia. Qed.

Section ScriptFacts.

Variable net : string -> nat -> attempt_result.
Variable strftime : Z -> string -> string.
Variable lib : pandas.

Lemma api_loop_requests_once url retries delay a rest w r w' :
  api_loop net url retries delay (a :: rest) w = (r, w') ->
  (S (requests_made w) <= requests_made w')%nat.
Proof.
  cbn [api_loop]. unfold bind at 1. unfold requests_get at 1.
  destruct (net url (requests_made w)) as [data|e].
  - unfold ret. intros H. injection H as _ <-. simpl. lia.
  - destruct (caught e); [|unfold raise; intros H; injection H as _ <-;
                           simpl; lia].
    unfold bind at 1. unfold print at 1, emit at 1. unfold bind at 1.
    cbn [requests_made log].
    destruct (a <? retries - 1).
    + destruct (time_sleep (inject_Z delay) _) as [[[]|e'] w2] eqn:S.
      * apply (time_sleep_run_trace _ _ _ _ (fun _ => True)) in S.
        apply run_trace_mono in S. cbn [requests_made] in S.
        intros H. apply api_loop_trace in H.
        pose proof (run_trace_mono _ _ _ _ H). lia.
      * apply (time_sleep_run_trace _ _ _ _ (fun _ => True)) in S.
        apply run_trace_mono in S. cbn [requests_made] in S.
        intros H. injection H as _ <-. lia.
    + unfold ret at 1. intros H. apply api_loop_trace in H.
      pose proof (run_trace_mono _ _ _ _ H) as Hm.
      cbn [requests_made] in Hm. lia.
Qed.

Lemma collect_requests_once d rest acc w r w' :
  collect net strftime (d :: rest) acc w = (r, w') ->
  (S (requests_made w) <= requests_made w')%nat.
Proof.
  cbn [collect]. unfold bind at 1.
  destruct (get_top_wiki_articles net "en.wikipedia" (strftime d "%Y")
              (strftime d "%m") (strftime d "%d") "all-access" 3 1 w)
    as [res w1] eqn:G.
  unfold get_top_wiki_articles, __api__ in G.
  change (range 3) with [0; 1; 2] in G.
  apply api_loop_requests_once in G.
  assert (Hrest : forall acc' w2,
            (requests_made w1 <= requests_made w2)%nat ->
            collect net strftime rest acc' w2 = (r, w') ->
            (S (requests_made w) <= requests_made w')%nat).
  { intros acc' w2 H12 Hrun. apply collect_run_trace in Hrun.
    apply run_trace_mono in Hrun. lia. }
  destruct res as [data|e]; [|intros H; injection H as _ <-; exact G].
  destruct (no_valid_data data).
  - unfold bind at 1. unfold print at 1, emit at 1.
    apply Hrest. simpl. lia.
  - destruct data as [p|];
      [|unfold raise; intros H; injection H as _ <-; exact G].
    unfold bind at 1. unfold lift at 1.
    destruct (day_articles p) as [es|e];
      [|intros H; injection H as _ <-; exact G].
    unfold bind at 1.
    destruct (time_sleep PAUSE w1) as [[[]|e'] w2] eqn:S;
      apply (time_sleep_run_trace _ _ _ _ (fun _ => True)) in S;
      apply run_trace_mono in S.
    + now apply Hrest.
    + intros H. injection H as _ <-. lia.
Qed.

Lemma main_requests_once start_date end_date w :
  start_date <= end_date ->
  (S (requests_made w)
   <= requests_made (snd (main net strftime lib start_date end_date w)))%nat.
Proof.
  intros Hle. unfold main, bind, date_range.
  replace (Z.to_nat (end_date - start_date + 1))
    with (S (Z.to_nat (end_date - start_date))) by lia.
  rewrite date_range_cons.
  destruct (collect net strftime _ [] w) as [res w1] eqn:C.
  apply collect_requests_once in C.
  destruct res as [frames|e]; [|exact C].
  destruct frames as [|f fs]; [exact C|].
  unfold lift.
  destruct (analyse_collected lib (f :: fs) start_date end_date);
    exact C.
Qed.

End ScriptFacts.

(** X15. The script runs [main] exactly when both arguments parse and the
    end is not before the start (equal dates are accepted), and [main] then
    makes at least one request.  In every other case it stops where it
    started: no request, no figure, no result; an end before the start
    gives [SystemExit] with the message of the range check, a [ValueError]
    of the parser gives [SystemExit] with the format message followed by
    the parser's text. *)
Theorem script_runs_main_only_on_valid_range
    (net : string -> nat -> attempt_result)
    (strftime : Z -> string -> string)
    (lib : pandas)
    (strptime : string -> string -> result Z)
    (arg_start arg_end : string) (w : world) :
  (forall s e,
      strptime arg_start "%Y%m%d" = Ok s ->
      strptime arg_end "%Y%m%d" = Ok e ->
      (s <= e ->
       script net strftime lib strptime arg_start arg_end w
       = (Completed (fst (main net strftime lib s e w)),
          snd (main net strftime lib s e w))
       /\ (requests_made w
           < requests_made (snd (main net strftime lib s e w)))%nat)
      /\ (e < s ->
          script net strftime lib strptime arg_start arg_end w
          = (SystemExit MSG_END_BEFORE_START, w)))
  /\ (forall msg,
        strptime arg_start "%Y%m%d" = Raise (ValueError msg)
        \/ (exists s, strptime arg_start "%Y%m%d" = Ok s
                      /\ strptime arg_end "%Y%m%d"
                         = Raise (ValueError msg)) ->
        script net strftime lib strptime arg_start arg_end w
        = (SystemExit (MSG_BAD_FORMAT ++ msg), w))
  /\ ((forall s e, strptime arg_start "%Y%m%d" = Ok s ->
                   strptime arg_end "%Y%m%d" = Ok e -> e < s) ->
      snd (script net strftime lib strptime arg_start arg_end w) = w
      /\ forall out,
           fst (script net strftime lib strptime arg_start arg_end w)
           <> Completed (Ok out)).
Proof.
  split; [|split].
  - intros s e Hs He. unfold script, parse_dates. rewrite Hs, He. split.
    + intros Hle.
      replace (e <? s) with false by (symmetry; apply Z.ltb_ge; lia).
      split; [reflexivity|].
      pose proof (main_requests_once net strftime lib s e w Hle).
      lia.
    + intros Hlt.
      replace (e <? s) with true by (symmetry; apply Z.ltb_lt; lia).
      reflexivity.
  - intros msg [Hs|(s & Hs & He)]; unfold script, parse_dates.
    + rewrite Hs. reflexivity.
    + rewrite Hs, He. reflexivity.
  - intros Hbad. unfold script, parse_dates.
    destruct (strptime arg_start "%Y%m%d") as [s|es] eqn:Hs.
    + destruct (strptime arg_end "%Y%m%d") as [e|ee] eqn:He.
      * specialize (Hbad s e eq_refl eq_refl).
        replace (e <? s) with true by (symmetry; apply Z.ltb_lt; lia).
        split; [reflexivity|discriminate].
      * destruct ee; (split; [reflexivity|discriminate]).
    + destruct es; (split; [reflexivity|discriminate]).
Qed.
